(** * PNS command client for the LR5-LAN signal tower (src/main.py)

    A shallow embedding of the Python example program: the frame encoder
    built on [struct.pack], the two data classes, the three PNS commands
    over the module-level socket, and the command-line front end [main].

    Python values are modelled as follows.
    - [bytes] objects are lists of integers, one per byte (0..255);
      subscripting is stdpp's list lookup, an out-of-range subscript raises
      [IndexError]; slicing never raises.
    - Exceptions are a sum type [result]; code that touches the socket or
      prints runs in the monad [IO], which threads the chronological list of
      calls made on the socket and on standard output. *)

From Stdlib Require Import ZArith String Ascii List Lia.
From stdpp Require Import base tactics option list strings pretty.

Open Scope Z_scope.

(** ** Exceptions and results *)

Inductive exn : Type :=
| ValueError (msg : string)     (* raise ValueError(msg), also int("x") *)
| IndexError                    (* subscript out of range *)
| StructError                   (* struct.error *)
| OSError.                      (* any failure of a socket call *)

Inductive result (A : Type) : Type :=
| Ok (a : A)
| Raise (e : exn).

Arguments Ok {A} a.
Arguments Raise {A} e.

#[global] Instance result_ret : MRet result := fun A a => Ok a.
#[global] Instance result_bind : MBind result := fun A B f m =>
  match m with
  | Ok a => f a
  | Raise e => Raise e
  end.

(** ** Python [bytes] *)

Abbreviation bytes := (list Z).

(** A bytes literal [b'...'] of ASCII characters. *)
Definition bytes_of_string (s : string) : bytes :=
  map (fun c => Z.of_nat (nat_of_ascii c)) (list_ascii_of_string s).

(** [seq[i]] for a non-negative literal index [i]. *)
Definition py_index {A} (seq : list A) (i : nat) : result A :=
  match seq !! i with
  | Some x => Ok x
  | None => Raise IndexError
  end.

(** [seq[lo:hi]] for non-negative literal bounds: the bounds are clamped to
    the length, nothing is raised. *)
Definition py_slice {A} (seq : list A) (lo hi : nat) : list A :=
  take (hi - lo) (drop lo seq).

(** [seq[:]] *)
Definition py_slice_all {A} (seq : list A) : list A :=
  py_slice seq 0 (length seq).

(** ** [struct.pack]

    The fragment of the format language that the program uses: an optional
    byte-order character, then items made of an optional decimal count and a
    code among [s], [x], [B] and [H]. Codes wider than one byte are modelled
    in the standard big-endian layout selected by [>]; without a byte-order
    character only the one-byte codes are modelled, for which native
    alignment inserts nothing. *)

Inductive fmt_item : Type :=
| Fs (n : nat)      (* ns : a bytes argument, cut or zero-padded to n bytes *)
| Fx                (* x  : one pad byte, no argument *)
| FB                (* B  : unsigned char *)
| FH.               (* H  : unsigned short *)

Inductive pack_arg : Type :=
| ABytes (b : bytes)
| AInt (z : Z).

Definition digit_of_ascii (c : ascii) : option nat :=
  let n := nat_of_ascii c in
  if bool_decide (48 <= n <= 57)%nat then Some (n - 48)%nat else None.

Definition items_of_code (big_endian : bool) (count : option nat) (c : ascii)
  : option (list fmt_item) :=
  if Ascii.eqb c "s" then Some [Fs (default 1%nat count)]
  else if Ascii.eqb c "x" then Some (replicate (default 1%nat count) Fx)
  else if Ascii.eqb c "B" then Some (replicate (default 1%nat count) FB)
  else if Ascii.eqb c "H" then
    if big_endian then Some (replicate (default 1%nat count) FH) else None
  else None.

Fixpoint parse_items (big_endian : bool) (count : option nat) (cs : list ascii)
  : option (list fmt_item) :=
  match cs with
  | [] => match count with None => Some [] | Some _ => None end
  | c :: cs' =>
      match digit_of_ascii c with
      | Some d => parse_items big_endian (Some (10 * default 0%nat count + d)%nat) cs'
      | None =>
          match items_of_code big_endian count c, parse_items big_endian None cs' with
          | Some its, Some rest => Some (its ++ rest)
          | _, _ => None
          end
      end
  end.

Definition parse_format (fmt : string) : option (list fmt_item) :=
  match list_ascii_of_string fmt with
  | c :: cs => if Ascii.eqb c ">" then parse_items true None cs
               else parse_items false None (c :: cs)
  | [] => Some []
  end.

(** Big-endian unsigned short. *)
Definition pack_H (z : Z) : bytes := [z / 256; z mod 256].

Fixpoint pack_items (its : list fmt_item) (args : list pack_arg) : result bytes :=
  match its with
  | [] => match args with [] => Ok [] | _ :: _ => Raise StructError end
  | Fx :: its' => rest ← pack_items its' args; Ok (0 :: rest)
  | Fs n :: its' =>
      match args with
      | ABytes b :: args' =>
          rest ← pack_items its' args';
          Ok (take n (b ++ replicate n 0) ++ rest)
      | _ => Raise StructError
      end
  | FB :: its' =>
      match args with
      | AInt z :: args' =>
          if bool_decide (0 <= z <= 255)
          then rest ← pack_items its' args'; Ok (z :: rest)
          else Raise StructError
      | _ => Raise StructError
      end
  | FH :: its' =>
      match args with
      | AInt z :: args' =>
          if bool_decide (0 <= z <= 65535)
          then rest ← pack_items its' args'; Ok (pack_H z ++ rest)
          else Raise StructError
      | _ => Raise StructError
      end
  end.

Definition struct_pack (fmt : string) (args : list pack_arg) : result bytes :=
  match parse_format fmt with
  | Some its => pack_items its args
  | None => Raise StructError
  end.

(** ** Module constants *)

Definition PNS_PRODUCT_ID : bytes := bytes_of_string "AB".
Definition PNS_RUN_CONTROL_COMMAND : bytes := bytes_of_string "S".
Definition PNS_CLEAR_COMMAND : bytes := bytes_of_string "C".
Definition PNS_GET_DATA_COMMAND : bytes := bytes_of_string "G".

Definition PNS_ACK : Z := 0x06.
Definition PNS_NAK : Z := 0x15.

Definition PNS_RUN_CONTROL_LED_OFF : Z := 0x00.
Definition PNS_RUN_CONTROL_LED_ON : Z := 0x01.
Definition PNS_RUN_CONTROL_LED_BLINKING_SLOW : Z := 0x02.
Definition PNS_RUN_CONTROL_LED_BLINKING_MEDIUM : Z := 0x03.
Definition PNS_RUN_CONTROL_LED_BLINKING_HIGH : Z := 0x04.
Definition PNS_RUN_CONTROL_LED_FLASHING_SINGLE : Z := 0x05.
Definition PNS_RUN_CONTROL_LED_FLASHING_DOUBLE : Z := 0x06.
Definition PNS_RUN_CONTROL_LED_FLASHING_TRIPLE : Z := 0x07.
Definition PNS_RUN_CONTROL_LED_NO_CHANGE : Z := 0x09.

Definition PNS_RUN_CONTROL_BUZZER_STOP : Z := 0x00.
Definition PNS_RUN_CONTROL_BUZZER_RING : Z := 0x01.
Definition PNS_RUN_CONTROL_BUZZER_NO_CHANGE : Z := 0x09.

(** The pattern codes the constants enumerate. *)
Definition led_patterns : list Z :=
  [ PNS_RUN_CONTROL_LED_OFF; PNS_RUN_CONTROL_LED_ON;
    PNS_RUN_CONTROL_LED_BLINKING_SLOW; PNS_RUN_CONTROL_LED_BLINKING_MEDIUM;
    PNS_RUN_CONTROL_LED_BLINKING_HIGH; PNS_RUN_CONTROL_LED_FLASHING_SINGLE;
    PNS_RUN_CONTROL_LED_FLASHING_DOUBLE; PNS_RUN_CONTROL_LED_FLASHING_TRIPLE;
    PNS_RUN_CONTROL_LED_NO_CHANGE ].

Definition buzzer_modes : list Z :=
  [ PNS_RUN_CONTROL_BUZZER_STOP; PNS_RUN_CONTROL_BUZZER_RING;
    PNS_RUN_CONTROL_BUZZER_NO_CHANGE ].

(** ** class PnsRunControlData *)

Record PnsRunControlData : Type := mkRunControlData {
  _led_red_pattern : Z;
  _led_amber_pattern : Z;
  _led_green_pattern : Z;
  _led_blue_pattern : Z;
  _led_white_pattern : Z;
  _buzzer_mode : Z
}.

Definition get_bytes (self : PnsRunControlData) : result bytes :=
  struct_pack "BBBBBB"
    [ AInt (_led_red_pattern self);
      AInt (_led_amber_pattern self);
      AInt (_led_green_pattern self);
      AInt (_led_blue_pattern self);
      AInt (_led_white_pattern self);
      AInt (_buzzer_mode self) ].

(** The fields in wire order. *)
Definition fields (d : PnsRunControlData) : list Z :=
  [ _led_red_pattern d; _led_amber_pattern d; _led_green_pattern d;
    _led_blue_pattern d; _led_white_pattern d; _buzzer_mode d ].

(** Every LED field is an enumerated LED pattern and the buzzer field an
    enumerated buzzer mode. *)
Definition enumerated (d : PnsRunControlData) : bool :=
  forallb (fun z => existsb (Z.eqb z) led_patterns)
    [ _led_red_pattern d; _led_amber_pattern d; _led_green_pattern d;
      _led_blue_pattern d; _led_white_pattern d ]
  && existsb (Z.eqb (_buzzer_mode d)) buzzer_modes.

(** ** class PnsStatusData *)

Record PnsStatusData : Type := mkStatusData {
  _ledPattern : bytes;
  _buzzer : Z
}.

(** [PnsStatusData.__init__]: the slice is taken first, then [data[5]]. *)
Definition PnsStatusData_init (data : bytes) : result PnsStatusData :=
  let led := py_slice data 0 5 in
  buz ← py_index data 5;
  Ok {| _ledPattern := led; _buzzer := buz |}.

(** The two read-only properties. *)
Definition ledPattern (self : PnsStatusData) : bytes :=
  py_slice_all (_ledPattern self).

Definition buzzer (self : PnsStatusData) : Z := _buzzer self.

(** ** The socket and standard output

    [_sock] is a module-level object shared by every function. The calls made
    on it, and the lines printed, are recorded in order; what the peer does
    is a parameter of the model. *)

Inductive event : Type :=
| EvConnect (ip : string) (port : Z)    (* _sock.connect((ip, port)) *)
| EvSend (data : bytes)                 (* _sock.send(data) *)
| EvRecv (bufsize : nat)                (* _sock.recv(bufsize) *)
| EvClose                               (* _sock.close() *)
| EvPrint (line : string).              (* print(line) *)

Abbreviation world := (list event).

#[global] Instance event_eq_dec : EqDecision event.
Proof. solve_decision. Defined.

Record network : Type := mkNetwork {
  on_connect : option exn;              (* [Some e]: connect raises e *)
  on_send : bytes -> option exn;        (* [Some e]: send raises e *)
  on_recv : world -> result bytes       (* what the peer has delivered, given
                                           the calls made so far *)
}.

Definition IO (A : Type) : Type := world -> result A * world.

#[global] Instance IO_ret : MRet IO := fun A a w => (Ok a, w).
#[global] Instance IO_bind : MBind IO := fun A B f m w =>
  match m w with
  | (Ok a, w') => f a w'
  | (Raise e, w') => (Raise e, w')
  end.

Definition lift {A} (r : result A) : IO A := fun w => (r, w).
Definition throw {A} (e : exn) : IO A := fun w => (Raise e, w).
Definition emit (ev : event) : IO unit := fun w => (Ok tt, w ++ [ev]).

(** [try: body finally: fin]: [fin] runs on every exit of [body]; an
    exception of [fin] replaces the outcome of [body]. *)
Definition try_finally {A} (body : IO A) (fin : IO unit) : IO A := fun w =>
  match body w with
  | (r, w1) =>
      match fin w1 with
      | (Ok _, w2) => (r, w2)
      | (Raise e, w2) => (Raise e, w2)
      end
  end.

Definition print (line : string) : IO unit := emit (EvPrint line).

(** [str(n)] for an int. *)
Definition str (n : Z) : string := pretty n.

(** The frames handed to [_sock.send], oldest first. *)
Definition sent_frames (w : world) : list bytes :=
  omap (fun ev => match ev with EvSend d => Some d | _ => None end) w.

(** The number of [_sock.close()] calls. *)
Definition close_count (w : world) : nat :=
  length (filter (fun ev => ev = EvClose) w).

Section Client.

Variable net : network.

Definition sock_connect (ip : string) (port : Z) : IO unit := fun w =>
  let w' := w ++ [EvConnect ip port] in
  match on_connect net with
  | None => (Ok tt, w')
  | Some e => (Raise e, w')
  end.

Definition sock_send (data : bytes) : IO unit := fun w =>
  let w' := w ++ [EvSend data] in
  match on_send net data with
  | None => (Ok tt, w')
  | Some e => (Raise e, w')
  end.

Definition sock_recv (bufsize : nat) : IO bytes := fun w =>
  let w' := w ++ [EvRecv bufsize] in
  match on_recv net w with
  | Ok d => (Ok (take bufsize d), w')
  | Raise e => (Raise e, w')
  end.

Definition socket_open (ip : string) (port : Z) : IO unit :=
  sock_connect ip port.

Definition socket_close : IO unit := emit EvClose.

Definition send_command (send_data : bytes) : IO bytes :=
  sock_send send_data;;
  recv_data ← sock_recv 1024;
  mret recv_data.

Definition pns_run_control_command (run_control_data : PnsRunControlData)
  : IO unit :=
  send_data ← lift (struct_pack ">2ssxH"
    [ABytes PNS_PRODUCT_ID; ABytes PNS_RUN_CONTROL_COMMAND; AInt 6]);
  payload ← lift (get_bytes run_control_data);
  let send_data := send_data ++ payload in
  recv_data ← send_command send_data;
  status ← lift (py_index recv_data 0);
  if bool_decide (status = PNS_NAK)
  then throw (ValueError "negative acknowledge")
  else mret tt.

Definition pns_clear_command : IO unit :=
  send_data ← lift (struct_pack ">2ssxH"
    [ABytes PNS_PRODUCT_ID; ABytes PNS_CLEAR_COMMAND; AInt 0]);
  recv_data ← send_command send_data;
  status ← lift (py_index recv_data 0);
  if bool_decide (status = PNS_NAK)
  then throw (ValueError "negative acknowledge")
  else mret tt.

Definition pns_get_data_command : IO PnsStatusData :=
  send_data ← lift (struct_pack ">2ssxH"
    [ABytes PNS_PRODUCT_ID; ABytes PNS_GET_DATA_COMMAND; AInt 0]);
  recv_data ← send_command send_data;
  status ← lift (py_index recv_data 0);
  if bool_decide (status = PNS_NAK)
  then throw (ValueError "negative acknowledge")
  else
    status_data ← lift (PnsStatusData_init recv_data);
    mret status_data.

(** ** The front end *)

(** Python's [int(s)] on a command-line argument is left abstract: it
    returns an integer or raises. *)
Variable py_int : string -> result Z.

Definition int_arg (args : list string) (i : nat) : IO Z :=
  lift (a ← py_index args i; py_int a).

Definition print_led (label : string) (status_data : PnsStatusData) (i : nat)
  : IO unit :=
  v ← lift (py_index (ledPattern status_data) i);
  print (label +:+ str v).

Definition main (args : list string) : IO unit :=
  let argc := length args in
  socket_open "192.168.10.1" 10000;;
  try_finally
    (a ← lift (py_index args 1);
     if String.eqb a "S" then
       if bool_decide (8 <= argc)%nat then
         red ← int_arg args 2;
         amber ← int_arg args 3;
         green ← int_arg args 4;
         blue ← int_arg args 5;
         white ← int_arg args 6;
         buz ← int_arg args 7;
         let run_control_data :=
           mkRunControlData red amber green blue white buz in
         pns_run_control_command run_control_data
       else mret tt
     else
       a ← lift (py_index args 1);
       if String.eqb a "C" then pns_clear_command
       else
         a ← lift (py_index args 1);
         if String.eqb a "G" then
           status_data ← pns_get_data_command;
           print "Response data for status acquisition command";;
           print_led "LED Red pattern :" status_data 0;;
           print_led "LED Amber pattern :" status_data 1;;
           print_led "LED Green pattern :" status_data 2;;
           print_led "LED Blue pattern :" status_data 3;;
           print_led "LED White pattern :" status_data 4;;
           print ("buzzer mode :" +:+ str (buzzer status_data))
         else mret tt)
    socket_close.

End Client.

(** A peer that accepts the connection and every send, and delivers
    [reply] to the first receive. *)
Definition answering (reply : bytes) : network :=
  {| on_connect := None; on_send := fun _ => None; on_recv := fun _ => Ok reply |}.

(** A peer whose answer depends on the request: it delivers [status] to the
    receive that follows a status frame and a lone ACK after any other
    frame. *)
Definition device (status : bytes) : network :=
  {| on_connect := None;
     on_send := fun _ => None;
     on_recv := fun w =>
       match last w with
       | Some (EvSend frame) =>
           if bool_decide (frame = [0x41; 0x42; 0x47; 0; 0; 0])
           then Ok status else Ok [PNS_ACK]
       | _ => Raise OSError
       end |}.

(** A peer that refuses the connection. *)
Definition refusing : network :=
  {| on_connect := Some OSError; on_send := fun _ => None;
     on_recv := fun _ => Raise OSError |}.

(** A model of [int(s)] on an ASCII argument, for running [main] on
    concrete command lines: surrounding white space is dropped, one sign is
    allowed, and the digits may be separated by single underscores. The
    message of the [ValueError] quotes the argument as [repr] does for a
    string without quotes, backslashes or control characters. Every theorem
    about [main] holds for any [py_int]; this one only feeds the samples. *)
Definition is_space (c : ascii) : bool :=
  let n := nat_of_ascii c in
  bool_decide (n = 32 \/ 9 <= n <= 13 \/ 28 <= n <= 31)%nat.

Fixpoint lstrip (cs : list ascii) : list ascii :=
  match cs with
  | c :: cs' => if is_space c then lstrip cs' else cs
  | [] => []
  end.

Definition strip (cs : list ascii) : list ascii :=
  rev (lstrip (rev (lstrip cs))).

(** [after_digit] tells whether the previous character was a digit: only
    then may an underscore or the end of the literal follow. *)
Fixpoint decimal_value (acc : Z) (after_digit : bool) (cs : list ascii)
  : option Z :=
  match cs with
  | [] => if after_digit then Some acc else None
  | c :: cs' =>
      match digit_of_ascii c with
      | Some d => decimal_value (10 * acc + Z.of_nat d) true cs'
      | None =>
          if Ascii.eqb c "_" && after_digit
          then decimal_value acc false cs'
          else None
      end
  end.

Definition int_of_decimal (s : string) : result Z :=
  let body := strip (list_ascii_of_string s) in
  let signed :=
    match body with
    | c :: cs =>
        if Ascii.eqb c "-" then (true, cs)
        else if Ascii.eqb c "+" then (false, cs)
        else (false, body)
    | [] => (false, body)
    end in
  match decimal_value 0 false (snd signed) with
  | Some v => Ok (if fst signed then - v else v)
  | None =>
      Raise (ValueError ("invalid literal for int() with base 10: '" +:+ s +:+ "'"))
  end.

(** ** Reading a frame back

    Modelled from the spec: the program only writes request frames, it has no
    reader for them. [parse_frame] reads the header by the layout table of
    the wire frame: ProductId at offsets 0-1, CommandId at 2, the reserved
    byte at 3, DataLength at 4-5 as a big-endian unsigned integer, and the
    payload from offset 6 to the end of the frame. *)

Record Frame : Type := mkFrame {
  product_id : bytes;
  command_id : Z;
  reserved : Z;
  data_length : Z;
  payload : bytes
}.

Definition parse_frame (frame : bytes) : option Frame :=
  match frame with
  | p0 :: p1 :: cmd :: pad :: hi :: lo :: rest =>
      Some (mkFrame [p0; p1] cmd pad (hi * 256 + lo) rest)
  | _ => None
  end.

(** DataLength is the byte length of the payload. *)
Definition length_consistent (frame : bytes) : Prop :=
  exists f, parse_frame frame = Some f /\
            data_length f = Z.of_nat (length (payload f)).

(** ** Auxiliary definitions for the statements *)

(** A value that fits the [B] format code. *)
Definition in_ubyte (z : Z) : bool := bool_decide (0 <= z <= 255).

(** The test every command applies to the received data. *)
Definition nak_check (recv_data : bytes) : result unit :=
  status ← py_index recv_data 0;
  if bool_decide (status = PNS_NAK)
  then Raise (ValueError "negative acknowledge")
  else Ok tt.

(** The exchange of [frame] in state [w] fails with [e]: the send raises
    [e], or the send succeeds and the receive that follows raises [e]. *)
Definition exchange_raises (net : network) (w : world) (frame : bytes)
  (e : exn) : Prop :=
  on_send net frame = Some e \/
  (on_send net frame = None /\ on_recv net (w ++ [EvSend frame]) = Raise e).

(** The exception the commands raise on a NAK. *)
Abbreviation NegativeAcknowledge := (ValueError "negative acknowledge").

(** [emits Q m]: running [m] only appends events, all of which satisfy [Q]. *)
Definition emits {A} (Q : event -> Prop) (m : IO A) : Prop :=
  forall w, exists tl, snd (m w) = w ++ tl /\ Forall Q tl.

(** The events a command may add: never a close, and only frames whose
    DataLength field is the length of their payload. *)
Definition command_event (ev : event) : Prop :=
  ev <> EvClose /\ forall frame, ev = EvSend frame -> length_consistent frame.

(** ** Observations on a trace and on one invocation *)

(** The lines handed to [print], oldest first. *)
Definition printed_lines (w : list event) : list string :=
  omap (fun ev => match ev with EvPrint line => Some line | _ => None end) w.

(** The socket calls of one request/response exchange. *)
Definition exchange_event (ev : event) : Prop :=
  match ev with
  | EvSend _ | EvRecv _ => True
  | _ => False
  end.

(** [trace] extends [w] by one exchange of [frame]: the send of [frame],
    then one [recv(1024)] unless the send raised. *)
Definition one_exchange (net : network) (w : list event) (frame : bytes)
  (trace : list event) : Prop :=
  exists tl,
    trace = w ++ EvSend frame :: tl /\
    ((tl = [] /\ on_send net frame <> None) \/
     (tl = [EvRecv 1024%nat] /\ on_send net frame = None)).

(** The seven lines the ['G'] branch of [main] prints for a status. *)
Definition report_lines (red amber green blue white buz : Z) : list string :=
  [ "Response data for status acquisition command";
    "LED Red pattern :" +:+ str red;
    "LED Amber pattern :" +:+ str amber;
    "LED Green pattern :" +:+ str green;
    "LED Blue pattern :" +:+ str blue;
    "LED White pattern :" +:+ str white;
    "buzzer mode :" +:+ str buz ]%string.

(** What the body of the [try] in [main] does, branch by branch, started in
    state [w1] (the trace once the connection is open). [main_dispatch]
    below shows that the body always takes one of these branches. *)
Inductive dispatch (net : network) (py_int : string -> result Z)
  (args : list string) (w1 : list event) : result unit * list event -> Prop :=
| dispatch_no_command :
    args !! 1%nat = None ->
    dispatch net py_int args w1 (Raise IndexError, w1)
| dispatch_S_missing :
    args !! 1%nat = Some "S"%string ->
    (length args < 8)%nat ->
    dispatch net py_int args w1 (Ok tt, w1)
| dispatch_S_bad_int i a e vs :
    args !! 1%nat = Some "S"%string ->
    (8 <= length args)%nat ->
    (2 <= i <= 7)%nat ->
    Forall2 (fun a v => py_int a = Ok v) (take (i - 2) (drop 2 args)) vs ->
    args !! i = Some a ->
    py_int a = Raise e ->
    dispatch net py_int args w1 (Raise e, w1)
| dispatch_S_run d :
    args !! 1%nat = Some "S"%string ->
    (8 <= length args)%nat ->
    Forall2 (fun a v => py_int a = Ok v) (take 6 (drop 2 args)) (fields d) ->
    dispatch net py_int args w1 (pns_run_control_command net d w1)
| dispatch_C :
    args !! 1%nat = Some "C"%string ->
    dispatch net py_int args w1 (pns_clear_command net w1)
| dispatch_G_raise e w2 :
    args !! 1%nat = Some "G"%string ->
    pns_get_data_command net w1 = (Raise e, w2) ->
    dispatch net py_int args w1 (Raise e, w2)
| dispatch_G_report st w2 red amber green blue white :
    args !! 1%nat = Some "G"%string ->
    pns_get_data_command net w1 = (Ok st, w2) ->
    ledPattern st = [red; amber; green; blue; white] ->
    dispatch net py_int args w1
      (Ok tt, w2 ++ map EvPrint (report_lines red amber green blue white (buzzer st)))
| dispatch_other a :
    args !! 1%nat = Some a ->
    a <> "S"%string -> a <> "C"%string -> a <> "G"%string ->
    dispatch net py_int args w1 (Ok tt, w1).

(** * Sample runs *)

Example get_bytes_sample :
  get_bytes (mkRunControlData 1 0 2 0 9 1) = Ok [1; 0; 2; 0; 9; 1].
Proof. reflexivity. Qed.

Example header_sample :
  struct_pack ">2ssxH" [ABytes PNS_PRODUCT_ID; ABytes PNS_RUN_CONTROL_COMMAND; AInt 6]
  = Ok [0x41; 0x42; 0x53; 0; 0; 6].
Proof. reflexivity. Qed.

Example main_S_sample :
  main (answering [0x06]) int_of_decimal ["main.py"; "S"; "1"; "0"; "2"; "0"; "9"; "1"] []
  = (Ok tt, [EvConnect "192.168.10.1" 10000;
             EvSend [0x41; 0x42; 0x53; 0; 0; 6; 1; 0; 2; 0; 9; 1];
             EvRecv 1024; EvClose]).
Proof. reflexivity. Qed.

Example main_G_sample :
  main (answering [0; 1; 2; 3; 4; 9]) int_of_decimal ["main.py"; "G"] []
  = (Ok tt, [EvConnect "192.168.10.1" 10000;
             EvSend [0x41; 0x42; 0x47; 0; 0; 0];
             EvRecv 1024;
             EvPrint "Response data for status acquisition command";
             EvPrint "LED Red pattern :0";
             EvPrint "LED Amber pattern :1";
             EvPrint "LED Green pattern :2";
             EvPrint "LED Blue pattern :3";
             EvPrint "LED White pattern :4";
             EvPrint "buzzer mode :9";
             EvClose]).
Proof. vm_compute. reflexivity. Qed.

(** * Properties of the pure layer *)

Ltac io_unfold :=
  unfold mbind, mret, IO_bind, IO_ret, result_bind, result_ret,
         lift, throw, emit, print in *.

Section PureLayer.

Implicit Types (d : PnsRunControlData) (data : bytes).

Lemma parse_format_payload :
  parse_format "BBBBBB" = Some [FB; FB; FB; FB; FB; FB].
Proof. vm_compute. reflexivity. Qed.

Lemma parse_format_header :
  parse_format ">2ssxH" = Some [Fs 2; Fs 1; Fx; FH].
Proof. vm_compute. reflexivity. Qed.

(** What [struct.pack('BBBBBB', ...)] does with the six fields: they are
    copied when every one fits an unsigned char, and [struct.error] is
    raised otherwise. *)
Lemma get_bytes_cases d :
  get_bytes d =
  if forallb in_ubyte (fields d) then Ok (fields d) else Raise StructError.
Proof.
  destruct d as [r a g b w z]. unfold get_bytes, fields, in_ubyte, struct_pack.
  rewrite parse_format_payload. cbn.
  repeat (case_bool_decide; cbn; [ | reflexivity ]). reflexivity.
Qed.

Lemma get_bytes_in_range d :
  forallb in_ubyte (fields d) = true -> get_bytes d = Ok (fields d).
Proof. rewrite get_bytes_cases. now intros ->. Qed.

Lemma get_bytes_Ok d p : get_bytes d = Ok p -> p = fields d.
Proof.
  rewrite get_bytes_cases. destruct (forallb _ _); congruence.
Qed.

Lemma led_pattern_in_ubyte z :
  existsb (Z.eqb z) led_patterns = true -> in_ubyte z = true.
Proof.
  unfold led_patterns, in_ubyte. cbn.
  rewrite !orb_true_iff, !Z.eqb_eq, bool_decide_eq_true.
  intros H. decompose [or] H; subst; try discriminate; vm_compute; split; discriminate.
Qed.

Lemma buzzer_mode_in_ubyte z :
  existsb (Z.eqb z) buzzer_modes = true -> in_ubyte z = true.
Proof.
  unfold buzzer_modes, in_ubyte. cbn.
  rewrite !orb_true_iff, !Z.eqb_eq, bool_decide_eq_true.
  intros H. decompose [or] H; subst; try discriminate; vm_compute; split; discriminate.
Qed.

Lemma enumerated_in_ubyte d :
  enumerated d = true -> forallb in_ubyte (fields d) = true.
Proof.
  destruct d as [r a g b w z]. unfold enumerated, fields. cbn [forallb
    _led_red_pattern _led_amber_pattern _led_green_pattern _led_blue_pattern
    _led_white_pattern _buzzer_mode].
  rewrite !andb_true_iff.
  intros [(Hr & Ha & Hg & Hb & Hw & _) Hz].
  repeat split; auto using led_pattern_in_ubyte, buzzer_mode_in_ubyte.
Qed.

Lemma py_index_Ok {A} (l : list A) i x : py_index l i = Ok x <-> l !! i = Some x.
Proof. unfold py_index. destruct (l !! i); split; congruence. Qed.

Lemma py_index_short {A} (l : list A) i :
  (length l <= i)%nat -> py_index l i = Raise IndexError.
Proof. intros H. unfold py_index. now rewrite lookup_ge_None_2. Qed.

Lemma py_slice_all_id {A} (l : list A) : py_slice_all l = l.
Proof. unfold py_slice_all, py_slice. cbn. rewrite Nat.sub_0_r. apply firstn_all. Qed.

Lemma PnsStatusData_init_Ok data :
  (6 <= length data)%nat ->
  exists buz, data !! 5%nat = Some buz /\
    PnsStatusData_init data = Ok {| _ledPattern := take 5 data; _buzzer := buz |}.
Proof.
  intros H. destruct (lookup_lt_is_Some_2 data 5) as [buz Hb]; [lia|].
  exists buz. split; [exact Hb|].
  unfold PnsStatusData_init, py_index, py_slice. rewrite Hb. reflexivity.
Qed.

Lemma PnsStatusData_init_short data :
  (length data < 6)%nat -> PnsStatusData_init data = Raise IndexError.
Proof.
  intros H. unfold PnsStatusData_init. rewrite py_index_short by lia. reflexivity.
Qed.

End PureLayer.

(** * Properties of the commands *)

Section Commands.

Variable net : network.
Implicit Types (w : world) (d : PnsRunControlData) (reply : bytes).

Lemma header_S :
  struct_pack ">2ssxH" [ABytes PNS_PRODUCT_ID; ABytes PNS_RUN_CONTROL_COMMAND; AInt 6]
  = Ok [0x41; 0x42; 0x53; 0; 0; 6].
Proof. reflexivity. Qed.

Lemma header_C :
  struct_pack ">2ssxH" [ABytes PNS_PRODUCT_ID; ABytes PNS_CLEAR_COMMAND; AInt 0]
  = Ok [0x41; 0x42; 0x43; 0; 0; 0].
Proof. reflexivity. Qed.

Lemma header_G :
  struct_pack ">2ssxH" [ABytes PNS_PRODUCT_ID; ABytes PNS_GET_DATA_COMMAND; AInt 0]
  = Ok [0x41; 0x42; 0x47; 0; 0; 0].
Proof. reflexivity. Qed.

Lemma send_command_eq send_data w :
  send_command net send_data w =
  match on_send net send_data with
  | Some e => (Raise e, w ++ [EvSend send_data])
  | None =>
      match on_recv net (w ++ [EvSend send_data]) with
      | Ok data => (Ok (take 1024 data), w ++ [EvSend send_data; EvRecv 1024])
      | Raise e => (Raise e, w ++ [EvSend send_data; EvRecv 1024])
      end
  end.
Proof.
  unfold send_command, sock_send, sock_recv. io_unfold.
  destruct (on_send net send_data); [reflexivity|].
  rewrite <- app_assoc. cbn [app].
  destruct (on_recv net _); reflexivity.
Qed.

Lemma send_command_world send_data w :
  exists tl, snd (send_command net send_data w) = w ++ EvSend send_data :: tl
             /\ (tl = [] \/ tl = [EvRecv 1024%nat]).
Proof.
  rewrite send_command_eq.
  destruct (on_send net send_data);
    [| destruct (on_recv net _)]; cbn [snd]; eauto.
Qed.

Lemma send_command_frames send_data w :
  sent_frames (snd (send_command net send_data w)) = sent_frames w ++ [send_data].
Proof.
  destruct (send_command_world send_data w) as (tl & -> & [-> | ->]);
    unfold sent_frames; rewrite omap_app; reflexivity.
Qed.

Lemma send_command_length send_data w reply :
  fst (send_command net send_data w) = Ok reply -> (length reply <= 1024)%nat.
Proof.
  rewrite send_command_eq.
  destruct (on_send net send_data); [discriminate|].
  destruct (on_recv net _); cbn [fst]; [|discriminate].
  intros [= <-]. rewrite length_take. lia.
Qed.

Lemma pns_run_control_command_eq d w :
  pns_run_control_command net d w =
  match get_bytes d with
  | Ok p =>
      match send_command net ([0x41; 0x42; 0x53; 0; 0; 6] ++ p) w with
      | (r, w') => (recv_data ← r; nak_check recv_data, w')
      end
  | Raise e => (Raise e, w)
  end.
Proof.
  unfold pns_run_control_command. rewrite header_S. unfold nak_check. io_unfold.
  destruct (get_bytes d) as [p|e]; [|reflexivity].
  destruct (send_command net _ w) as [[recv_data|e] w']; [|reflexivity].
  destruct (py_index recv_data 0); [|reflexivity].
  destruct (bool_decide _); reflexivity.
Qed.

Lemma pns_clear_command_eq w :
  pns_clear_command net w =
  match send_command net [0x41; 0x42; 0x43; 0; 0; 0] w with
  | (r, w') => (recv_data ← r; nak_check recv_data, w')
  end.
Proof.
  unfold pns_clear_command. rewrite header_C. unfold nak_check. io_unfold.
  destruct (send_command net _ w) as [[recv_data|e] w']; [|reflexivity].
  destruct (py_index recv_data 0); [|reflexivity].
  destruct (bool_decide _); reflexivity.
Qed.

Lemma pns_get_data_command_eq w :
  pns_get_data_command net w =
  match send_command net [0x41; 0x42; 0x47; 0; 0; 0] w with
  | (r, w') =>
      (recv_data ← r; nak_check recv_data;; PnsStatusData_init recv_data, w')
  end.
Proof.
  unfold pns_get_data_command. rewrite header_G. unfold nak_check. io_unfold.
  destruct (send_command net _ w) as [[recv_data|e] w']; [|reflexivity].
  destruct (py_index recv_data 0); [|reflexivity].
  destruct (bool_decide _); [reflexivity|].
  destruct (PnsStatusData_init recv_data); reflexivity.
Qed.

(** The outcome of each command once the reply to its own frame is known. *)
Lemma run_control_outcome d w reply :
  forallb in_ubyte (fields d) = true ->
  fst (send_command net ([0x41; 0x42; 0x53; 0; 0; 6] ++ fields d) w) = Ok reply ->
  fst (pns_run_control_command net d w) = nak_check reply.
Proof.
  intros Hd H. rewrite pns_run_control_command_eq, (get_bytes_in_range d Hd).
  destruct (send_command net _ w) as [r w']. cbn [fst] in *. now subst r.
Qed.

Lemma clear_outcome w reply :
  fst (send_command net [0x41; 0x42; 0x43; 0; 0; 0] w) = Ok reply ->
  fst (pns_clear_command net w) = nak_check reply.
Proof.
  intros H. rewrite pns_clear_command_eq.
  destruct (send_command net _ w) as [r w']. cbn [fst] in *. now subst r.
Qed.

Lemma get_data_outcome w reply :
  fst (send_command net [0x41; 0x42; 0x47; 0; 0; 0] w) = Ok reply ->
  fst (pns_get_data_command net w) = (nak_check reply;; PnsStatusData_init reply).
Proof.
  intros H. rewrite pns_get_data_command_eq.
  destruct (send_command net _ w) as [r w']. cbn [fst] in *. now subst r.
Qed.

Lemma nak_check_cases reply :
  nak_check reply =
  match reply with
  | [] => Raise IndexError
  | status :: _ =>
      if bool_decide (status = PNS_NAK)
      then Raise (ValueError "negative acknowledge") else Ok tt
  end.
Proof. destruct reply; reflexivity. Qed.

End Commands.

Lemma answering_replies reply send_data w :
  (length reply <= 1024)%nat ->
  fst (send_command (answering reply) send_data w) = Ok reply.
Proof.
  intros H. rewrite send_command_eq. cbn.
  now rewrite firstn_all2.
Qed.

(** * The status reply *)

(** C6. For every input of at least 6 bytes, [PnsStatusData] is constructed
    with [_ledPattern = data[0:5]] (index 0 red, 1 amber, 2 green, 3 blue,
    4 white) and [_buzzer = data[5]]; the [ledPattern] property returns bytes
    equal to the stored ones (the stored field is an immutable bytes value,
    the property only slices it), and [buzzer] returns the stored mode. On
    [b"\x00\x01\x02\x03\x04\x09"] the result is led pattern [0,1,2,3,4] and
    buzzer 9. *)
Theorem status_data_decode (data : bytes) :
  (6 <= length data)%nat ->
  exists st,
    PnsStatusData_init data = Ok st /\
    _ledPattern st = py_slice data 0 5 /\
    length (_ledPattern st) = 5%nat /\
    (forall i, (i < 5)%nat -> ledPattern st !! i = data !! i) /\
    data !! 5%nat = Some (buzzer st) /\
    ledPattern st = _ledPattern st /\
    (data = [0; 1; 2; 3; 4; 9] -> ledPattern st = [0; 1; 2; 3; 4] /\ buzzer st = 9).
Proof.
  intros Hlen.
  destruct (PnsStatusData_init_Ok data Hlen) as (buz & Hbuz & Hinit).
  eexists. split; [exact Hinit|]. cbn [_ledPattern _buzzer buzzer].
  unfold ledPattern. rewrite py_slice_all_id. cbn [_ledPattern].
  repeat split.
  - rewrite length_take. lia.
  - intros i Hi. now apply lookup_take_lt.
  - exact Hbuz.
  - subst data. reflexivity.
  - subst data. cbn in Hbuz. congruence.
Qed.

Lemma status_data_decode_witness :
  exists st,
    PnsStatusData_init [0; 1; 2; 3; 4; 9] = Ok st /\
    ledPattern st = [0; 1; 2; 3; 4] /\ buzzer st = 9.
Proof.
  destruct (status_data_decode [0; 1; 2; 3; 4; 9]) as (st & H1 & _ & _ & _ & _ & _ & H2).
  - cbn. lia.
  - exists st. split; [exact H1|]. apply H2. reflexivity.
Defined.

(** C10. Two inputs of at least 6 bytes that agree on bytes 0 to 5 construct
    the same [PnsStatusData]: equal led pattern and equal buzzer. Whatever
    follows the sixth byte of a reply is ignored. *)
Theorem status_data_first_six (data1 data2 : bytes) :
  (6 <= length data1)%nat ->
  (6 <= length data2)%nat ->
  (forall i, (i < 6)%nat -> data1 !! i = data2 !! i) ->
  exists st1 st2,
    PnsStatusData_init data1 = Ok st1 /\
    PnsStatusData_init data2 = Ok st2 /\
    ledPattern st1 = ledPattern st2 /\
    buzzer st1 = buzzer st2.
Proof.
  intros H1 H2 Hagree.
  destruct (PnsStatusData_init_Ok data1 H1) as (b1 & Hb1 & ->).
  destruct (PnsStatusData_init_Ok data2 H2) as (b2 & Hb2 & ->).
  do 2 eexists. do 2 (split; [reflexivity|]).
  unfold ledPattern, buzzer. cbn [_ledPattern _buzzer].
  rewrite !py_slice_all_id. split.
  - apply list_eq. intros i. destruct (decide (i < 5)%nat) as [Hi|Hi].
    + rewrite !lookup_take_lt by exact Hi. apply Hagree. lia.
    + rewrite !lookup_take_ge by lia. reflexivity.
  - rewrite (Hagree 5%nat) in Hb1 by lia. congruence.
Qed.

Lemma status_data_first_six_witness :
  exists st1 st2,
    PnsStatusData_init [0; 1; 2; 3; 4; 9] = Ok st1 /\
    PnsStatusData_init [0; 1; 2; 3; 4; 9; 7; 7; 7] = Ok st2 /\
    ledPattern st1 = ledPattern st2 /\
    buzzer st1 = buzzer st2.
Proof.
  apply (status_data_first_six [0; 1; 2; 3; 4; 9] [0; 1; 2; 3; 4; 9; 7; 7; 7]).
  - cbn. lia.
  - cbn. lia.
  - intros i Hi.
    destruct i as [|[|[|[|[|[|i]]]]]]; try reflexivity. lia.
Defined.

(** * The run-control payload *)

(** C9 as stated fails: a field that does not fit an unsigned char makes
    [struct.pack('BBBBBB', ...)] raise [struct.error], so [get_bytes] does
    not succeed on every 6-tuple of integers. *)
Lemma get_bytes_any_integer_counterexample :
  get_bytes (mkRunControlData 256 0 0 0 0 0) = Raise StructError /\
  get_bytes (mkRunControlData 0 0 0 0 0 (-1)) = Raise StructError.
Proof. split; reflexivity. Qed.

(** C9 (amended). Field values are not checked against the enumerated
    pattern sets: [get_bytes] succeeds exactly on the 6-tuples whose fields
    all lie in 0..255, whether enumerated or not, and then returns the six
    values unchanged in field order; on any other tuple it raises
    [struct.error]. *)
Theorem get_bytes_pass_through (d : PnsRunControlData) :
  (forallb in_ubyte (fields d) = true -> get_bytes d = Ok (fields d)) /\
  (forallb in_ubyte (fields d) = false -> get_bytes d = Raise StructError).
Proof.
  rewrite get_bytes_cases. split; intros ->; reflexivity.
Qed.

Lemma get_bytes_pass_through_witness :
  enumerated (mkRunControlData 8 200 255 10 0 2) = false /\
  get_bytes (mkRunControlData 8 200 255 10 0 2) = Ok [8; 200; 255; 10; 0; 2].
Proof.
  split; [reflexivity|].
  apply (proj1 (get_bytes_pass_through (mkRunControlData 8 200 255 10 0 2))).
  reflexivity.
Defined.

(** * Frames on the wire *)

(** C3. The encoded frames are bit-exact: the payload of
    [PnsRunControlData(1,0,2,0,9,1)] is 01 00 02 00 09 01 and the frame sent
    for it is 41 42 53 00 00 06 01 00 02 00 09 01; the clear command sends
    41 42 43 00 00 00 and the status command 41 42 47 00 00 00, both with
    DataLength 0 and no payload. Each command hands exactly that one frame to
    the socket, whatever the peer does. *)
Theorem frames_bit_exact :
  get_bytes (mkRunControlData 1 0 2 0 9 1)
    = Ok [0x01; 0x00; 0x02; 0x00; 0x09; 0x01] /\
  (forall net w,
     sent_frames (snd (pns_run_control_command net (mkRunControlData 1 0 2 0 9 1) w))
     = sent_frames w ++
       [[0x41; 0x42; 0x53; 0x00; 0x00; 0x06; 0x01; 0x00; 0x02; 0x00; 0x09; 0x01]]) /\
  (forall net w,
     sent_frames (snd (pns_clear_command net w))
     = sent_frames w ++ [[0x41; 0x42; 0x43; 0x00; 0x00; 0x00]]) /\
  (forall net w,
     sent_frames (snd (pns_get_data_command net w))
     = sent_frames w ++ [[0x41; 0x42; 0x47; 0x00; 0x00; 0x00]]) /\
  parse_frame [0x41; 0x42; 0x43; 0x00; 0x00; 0x00]
    = Some (mkFrame PNS_PRODUCT_ID 0x43 0 0 []) /\
  parse_frame [0x41; 0x42; 0x47; 0x00; 0x00; 0x00]
    = Some (mkFrame PNS_PRODUCT_ID 0x47 0 0 []).
Proof.
  split; [reflexivity|]. split; [|split; [|split; [|split; reflexivity]]].
  - intros net w. rewrite pns_run_control_command_eq.
    change (get_bytes _) with (Ok [1; 0; 2; 0; 9; 1]). cbn [app].
    rewrite <- send_command_frames with (net := net).
    destruct (send_command net _ w); reflexivity.
  - intros net w. rewrite pns_clear_command_eq.
    rewrite <- send_command_frames with (net := net).
    destruct (send_command net _ w); reflexivity.
  - intros net w. rewrite pns_get_data_command_eq.
    rewrite <- send_command_frames with (net := net).
    destruct (send_command net _ w); reflexivity.
Qed.

(** * Acknowledgement and status decoding *)

(** C1 as stated fails: the reply is decoded from offset 0, not offset 1.
    On the 7-byte reply 06 01 02 03 04 05 09 the status returned has led
    pattern 06 01 02 03 04 (reply offsets 0..4) and buzzer 05 (offset 5),
    not the bytes at offsets 1..5 and 6. *)
Lemma get_data_offsets_counterexample :
  exists st,
    fst (pns_get_data_command (answering [0x06; 1; 2; 3; 4; 5; 9]) []) = Ok st /\
    ledPattern st = [0x06; 1; 2; 3; 4] /\
    buzzer st = 5 /\
    ledPattern st <> py_slice [0x06; 1; 2; 3; 4; 5; 9] 1 6 /\
    py_index [0x06; 1; 2; 3; 4; 5; 9] 6 <> Ok (buzzer st).
Proof.
  eexists. split; [reflexivity|]. repeat split; discriminate.
Qed.

(** C1 (amended). For every reply that passes the NAK test and has at least
    6 bytes, [pns_get_data_command] returns a status whose five LED fields
    are the reply bytes at offsets 0 to 4 (red, amber, green, blue, white)
    and whose buzzer field is the reply byte at offset 5. *)
Theorem get_data_reads_first_six net w (reply : bytes) :
  fst (send_command net [0x41; 0x42; 0x47; 0; 0; 0] w) = Ok reply ->
  nak_check reply = Ok tt ->
  (6 <= length reply)%nat ->
  exists st,
    fst (pns_get_data_command net w) = Ok st /\
    ledPattern st = py_slice reply 0 5 /\
    ledPattern st !! 0%nat = reply !! 0%nat /\
    ledPattern st !! 1%nat = reply !! 1%nat /\
    ledPattern st !! 2%nat = reply !! 2%nat /\
    ledPattern st !! 3%nat = reply !! 3%nat /\
    ledPattern st !! 4%nat = reply !! 4%nat /\
    Some (buzzer st) = reply !! 5%nat.
Proof.
  intros Hrecv Hack Hlen.
  rewrite (get_data_outcome net w reply Hrecv), Hack.
  destruct (PnsStatusData_init_Ok reply Hlen) as (buz & Hbuz & Hinit).
  eexists. split; [exact Hinit|].
  unfold ledPattern, buzzer. cbn [_ledPattern _buzzer]. rewrite py_slice_all_id.
  split_and!; try reflexivity; try (apply lookup_take_lt; lia). now rewrite Hbuz.
Qed.

Lemma get_data_reads_first_six_witness :
  exists st,
    fst (pns_get_data_command (device [0; 1; 2; 3; 4; 9]) []) = Ok st /\
    ledPattern st = [0; 1; 2; 3; 4] /\ Some (buzzer st) = Some 9.
Proof.
  destruct (get_data_reads_first_six (device [0; 1; 2; 3; 4; 9]) [] [0; 1; 2; 3; 4; 9])
    as (st & H1 & H2 & _ & _ & _ & _ & _ & H3).
  - reflexivity.
  - reflexivity.
  - cbn. lia.
  - exists st. split; [exact H1|]. split; [exact H2|exact H3].
Defined.

(** C2 as stated fails for the status command: a non-empty reply whose first
    byte is not NAK is not always a success. With the one-byte reply 06 (ACK)
    [pns_get_data_command] raises [IndexError] while decoding the status. *)
Lemma not_nak_is_success_counterexample :
  fst (pns_get_data_command (answering [0x06]) []) = Raise IndexError.
Proof. reflexivity. Qed.

(** C2 (amended). For every non-empty reply to the frame a command sends,
    the command raises the negative-acknowledge error if and only if the
    first byte of the reply is 0x15. With any other first byte, ACK or not,
    the run-control and clear commands return normally, and the status
    command returns a status when the reply has at least 6 bytes. *)
Theorem nak_iff_first_byte net w d (reply : bytes) :
  reply <> [] ->
  (forallb in_ubyte (fields d) = true ->
   fst (send_command net ([0x41; 0x42; 0x53; 0; 0; 6] ++ fields d) w) = Ok reply ->
   (fst (pns_run_control_command net d w) = Raise NegativeAcknowledge
      <-> reply !! 0%nat = Some PNS_NAK) /\
   (reply !! 0%nat <> Some PNS_NAK ->
      fst (pns_run_control_command net d w) = Ok tt)) /\
  (fst (send_command net [0x41; 0x42; 0x43; 0; 0; 0] w) = Ok reply ->
   (fst (pns_clear_command net w) = Raise NegativeAcknowledge
      <-> reply !! 0%nat = Some PNS_NAK) /\
   (reply !! 0%nat <> Some PNS_NAK -> fst (pns_clear_command net w) = Ok tt)) /\
  (fst (send_command net [0x41; 0x42; 0x47; 0; 0; 0] w) = Ok reply ->
   (fst (pns_get_data_command net w) = Raise NegativeAcknowledge
      <-> reply !! 0%nat = Some PNS_NAK) /\
   (reply !! 0%nat <> Some PNS_NAK -> (6 <= length reply)%nat ->
      exists st, fst (pns_get_data_command net w) = Ok st)).
Proof.
  intros Hne.
  assert (Hcheck :
    (nak_check reply = Raise NegativeAcknowledge <-> reply !! 0%nat = Some PNS_NAK) /\
    (reply !! 0%nat <> Some PNS_NAK -> nak_check reply = Ok tt)).
  { rewrite nak_check_cases. destruct reply as [|status rest]; [congruence|].
    cbn [lookup list_lookup]. case_bool_decide as Hs.
    - subst status. split; [split; congruence|congruence].
    - split; [split; congruence|reflexivity]. }
  destruct Hcheck as [Hiff Hok].
  split_and!.
  - intros Hd Hrecv. rewrite (run_control_outcome net d w reply Hd Hrecv). auto.
  - intros Hrecv. rewrite (clear_outcome net w reply Hrecv). auto.
  - intros Hrecv. rewrite (get_data_outcome net w reply Hrecv). split.
    + rewrite <- Hiff. io_unfold.
      destruct (nak_check reply) as [[]|e];
        [|split; intros [= ->]; reflexivity].
      split; [|discriminate].
      unfold PnsStatusData_init, py_index. io_unfold.
      destruct (reply !! 5%nat); discriminate.
    + intros Hs Hlen. rewrite (Hok Hs).
      destruct (PnsStatusData_init_Ok reply Hlen) as (b & _ & Hinit).
      exists {| _ledPattern := take 5 reply; _buzzer := b |}. exact Hinit.
Qed.

Lemma nak_iff_first_byte_witness :
  fst (pns_clear_command (answering [0x15]) []) = Raise NegativeAcknowledge /\
  fst (pns_run_control_command (device [0; 1; 2; 3; 4; 9])
         (mkRunControlData 1 0 2 0 9 1) [])
    = Ok tt.
Proof.
  split.
  - apply (proj1 (proj2 (nak_iff_first_byte (answering [0x15]) []
                           (mkRunControlData 1 0 2 0 9 1) [0x15] ltac:(discriminate)))).
    + reflexivity.
    + reflexivity.
  - apply (proj1 (nak_iff_first_byte (device [0; 1; 2; 3; 4; 9]) []
                    (mkRunControlData 1 0 2 0 9 1) [0x06] ltac:(discriminate))).
    + reflexivity.
    + reflexivity.
    + discriminate.
Defined.

(** C5 as stated fails. No length test precedes the subscripts, and the NAK
    test comes before the status decode: on the one-byte reply 15 the status
    command fails with the negative-acknowledge error, not with an
    incomplete-response error; an empty reply to the clear command and the
    2-byte input 06 00 to the status constructor fail with the [IndexError]
    of the out-of-range subscript itself. *)
Lemma short_reply_counterexample :
  fst (pns_get_data_command (answering [0x15]) []) = Raise NegativeAcknowledge /\
  fst (pns_clear_command (answering []) []) = Raise IndexError /\
  py_index ([] : bytes) 0 = Raise IndexError /\
  PnsStatusData_init [0x06; 0x00] = Raise IndexError /\
  py_index [0x06; 0x00] 5 = Raise IndexError.
Proof. repeat split; reflexivity. Qed.

(** C5 (amended). A reply shorter than the decode needs makes the command
    fail, with the exception of the failing step and without a separate
    length test: an empty reply makes the run-control and clear commands
    raise [IndexError] at [recv_data[0]]; a reply of fewer than 6 bytes makes
    the status command raise the negative-acknowledge error when its first
    byte is 0x15 and [IndexError] otherwise (at [recv_data[0]] when empty, at
    [data[5]] in the constructor when not); the status constructor raises
    [IndexError] on every input shorter than 6 bytes, in particular on
    [b"\x06\x00"]. *)
Theorem short_reply_raises net w d (reply : bytes) :
  (forallb in_ubyte (fields d) = true ->
   fst (send_command net ([0x41; 0x42; 0x53; 0; 0; 6] ++ fields d) w) = Ok [] ->
   fst (pns_run_control_command net d w) = Raise IndexError) /\
  (fst (send_command net [0x41; 0x42; 0x43; 0; 0; 0] w) = Ok [] ->
   fst (pns_clear_command net w) = Raise IndexError) /\
  (fst (send_command net [0x41; 0x42; 0x47; 0; 0; 0] w) = Ok reply ->
   (length reply < 6)%nat ->
   fst (pns_get_data_command net w) =
   if bool_decide (reply !! 0%nat = Some PNS_NAK)
   then Raise NegativeAcknowledge else Raise IndexError) /\
  (forall data : bytes, (length data < 6)%nat ->
     PnsStatusData_init data = Raise IndexError) /\
  PnsStatusData_init [0x06; 0x00] = Raise IndexError.
Proof.
  split_and!.
  - intros Hd Hrecv. now rewrite (run_control_outcome net d w [] Hd Hrecv).
  - intros Hrecv. now rewrite (clear_outcome net w [] Hrecv).
  - intros Hrecv Hlen.
    rewrite (get_data_outcome net w reply Hrecv), nak_check_cases.
    destruct reply as [|status rest]; [reflexivity|].
    io_unfold. cbn [lookup list_lookup].
    case_bool_decide as Hs.
    + subst status. rewrite bool_decide_eq_true_2; reflexivity.
    + rewrite bool_decide_eq_false_2 by congruence.
      now apply PnsStatusData_init_short.
  - apply PnsStatusData_init_short.
  - reflexivity.
Qed.

Lemma short_reply_raises_witness :
  fst (pns_get_data_command (device [0x06; 0x00]) []) = Raise IndexError /\
  fst (pns_clear_command (answering []) []) = Raise IndexError.
Proof.
  destruct (short_reply_raises (device [0x06; 0x00]) []
              (mkRunControlData 1 0 2 0 9 1) [0x06; 0x00]) as (_ & _ & Hg & _).
  destruct (short_reply_raises (answering []) []
              (mkRunControlData 1 0 2 0 9 1) []) as (_ & Hc & _).
  split.
  - apply Hg; [reflexivity|cbn; lia].
  - apply Hc. reflexivity.
Defined.

(** * What a computation adds to the trace *)

Section Emits.

Context (Q : event -> Prop).

Lemma emits_ret {A} (a : A) : emits Q (mret a).
Proof. intros w. exists []. split; [now rewrite app_nil_r|constructor]. Qed.

Lemma emits_lift {A} (r : result A) : emits Q (lift r).
Proof. intros w. exists []. split; [now rewrite app_nil_r|constructor]. Qed.

Lemma emits_throw {A} (e : exn) : emits Q (throw e : IO A).
Proof. intros w. exists []. split; [now rewrite app_nil_r|constructor]. Qed.

Lemma emits_emit ev : Q ev -> emits Q (emit ev).
Proof. intros H w. exists [ev]. split; [reflexivity|]. repeat constructor. exact H. Qed.

Lemma emits_bind {A B} (m : IO A) (f : A -> IO B) :
  emits Q m -> (forall a, emits Q (f a)) -> emits Q (m ≫= f).
Proof.
  intros Hm Hf w. io_unfold. destruct (Hm w) as (tl1 & E1 & F1).
  destruct (m w) as [[a|e] w1]; cbn [snd] in E1; subst w1.
  - destruct (Hf a (w ++ tl1)) as (tl2 & E2 & F2).
    exists (tl1 ++ tl2). rewrite E2, app_assoc. split; [reflexivity|].
    now apply Forall_app.
  - exists tl1. split; [reflexivity|exact F1].
Qed.

Lemma emits_if {A} (b : bool) (m1 m2 : IO A) :
  emits Q m1 -> emits Q m2 -> emits Q (if b then m1 else m2).
Proof. destruct b; auto. Qed.

End Emits.

Lemma command_event_send frame :
  length_consistent frame -> command_event (EvSend frame).
Proof. intros H. split; [discriminate|]. now intros ? [= <-]. Qed.

Lemma command_event_recv n : command_event (EvRecv n).
Proof. split; [discriminate|]. intros ? [=]. Qed.

Lemma command_event_print line : command_event (EvPrint line).
Proof. split; [discriminate|]. intros ? [=]. Qed.

Lemma length_consistent_header_only p0 p1 cmd pad :
  length_consistent [p0; p1; cmd; pad; 0; 0].
Proof. eexists. split; reflexivity. Qed.

Lemma length_consistent_run_control d :
  length_consistent ([0x41; 0x42; 0x53; 0; 0; 6] ++ fields d).
Proof. eexists. split; reflexivity. Qed.

Lemma close_count_app w1 w2 :
  close_count (w1 ++ w2) = (close_count w1 + close_count w2)%nat.
Proof. unfold close_count. now rewrite filter_app, length_app. Qed.

Lemma close_count_command_events tl :
  Forall command_event tl -> close_count tl = 0%nat.
Proof.
  induction 1 as [|ev tl [Hev _] _ IH]; [reflexivity|].
  unfold close_count in *. rewrite filter_cons_False by exact Hev. exact IH.
Qed.

Lemma sent_frames_app w1 w2 :
  sent_frames (w1 ++ w2) = sent_frames w1 ++ sent_frames w2.
Proof. unfold sent_frames. apply omap_app. Qed.

Lemma sent_frames_command_events tl :
  Forall command_event tl -> Forall length_consistent (sent_frames tl).
Proof.
  induction 1 as [|ev tl [_ Hev] _ IH]; [constructor|].
  destruct ev; cbn; auto.
Qed.

Section CommandTraces.

Variable net : network.

Lemma emits_send_command frame :
  length_consistent frame -> emits command_event (send_command net frame).
Proof.
  intros Hf w. destruct (send_command_world net frame w) as (tl & -> & Htl).
  eexists. split; [reflexivity|].
  constructor; [now apply command_event_send|].
  destruct Htl as [-> | ->]; repeat constructor; apply command_event_recv.
Qed.

Lemma emits_run_control d : emits command_event (pns_run_control_command net d).
Proof.
  intros w. rewrite pns_run_control_command_eq.
  destruct (get_bytes d) as [p|e] eqn:Hp.
  - apply get_bytes_Ok in Hp. subst p.
    destruct (emits_send_command _ (length_consistent_run_control d) w)
      as (tl & E & F).
    destruct (send_command net _ w). eauto.
  - exists []. split; [now rewrite app_nil_r|constructor].
Qed.

Lemma emits_clear : emits command_event (pns_clear_command net).
Proof.
  intros w. rewrite pns_clear_command_eq.
  destruct (emits_send_command _
              (length_consistent_header_only 0x41 0x42 0x43 0) w) as (tl & E & F).
  destruct (send_command net _ w). eauto.
Qed.

Lemma emits_get_data : emits command_event (pns_get_data_command net).
Proof.
  intros w. rewrite pns_get_data_command_eq.
  destruct (emits_send_command _
              (length_consistent_header_only 0x41 0x42 0x47 0) w) as (tl & E & F).
  destruct (send_command net _ w). eauto.
Qed.

Lemma try_finally_socket_close {A} (body : IO A) w :
  try_finally body socket_close w = (fst (body w), snd (body w) ++ [EvClose]).
Proof. unfold try_finally, socket_close, emit. now destruct (body w). Qed.

Variable py_int : string -> result Z.

Ltac emits_steps :=
  repeat first
    [ apply emits_run_control
    | apply emits_clear
    | apply emits_get_data
    | apply emits_if
    | apply emits_ret
    | apply emits_lift
    | apply emits_throw
    | apply emits_emit; apply command_event_print
    | apply emits_bind; [|intros ?] ].

(** The trace of one invocation of [main]: the connect call, then, when the
    connection opened, the events of the selected command and one close. *)
Lemma main_trace args w :
  match on_connect net with
  | Some e =>
      main net py_int args w = (Raise e, w ++ [EvConnect "192.168.10.1" 10000])
  | None =>
      exists tl,
        snd (main net py_int args w)
          = w ++ [EvConnect "192.168.10.1" 10000] ++ tl ++ [EvClose]
        /\ Forall command_event tl
  end.
Proof.
  unfold main, socket_open, sock_connect.
  match goal with
  | |- context [try_finally ?b _] => set (body := b)
  end.
  assert (Hbody : emits command_event body).
  { subst body. unfold int_arg, print_led, print. emits_steps. }
  clearbody body.
  unfold mbind, IO_bind.
  destruct (on_connect net) as [e|]; [reflexivity|].
  rewrite try_finally_socket_close. cbn [snd].
  destruct (Hbody (w ++ [EvConnect "192.168.10.1" 10000])) as (tl & -> & F).
  exists tl. split; [|exact F]. now rewrite <- !app_assoc.
Qed.

(** Without six values after ['S'] the body of [main] does nothing. *)
Lemma main_S_too_few args w :
  args !! 1%nat = Some "S"%string ->
  (length args < 8)%nat ->
  on_connect net = None ->
  main net py_int args w
    = (Ok tt, w ++ [EvConnect "192.168.10.1" 10000; EvClose]).
Proof.
  intros Hsel Hargc Hconn.
  unfold main, socket_open, sock_connect, py_index.
  unfold mbind at 1. unfold IO_bind. rewrite Hconn. cbv beta.
  rewrite try_finally_socket_close. rewrite Hsel. io_unfold.
  rewrite bool_decide_eq_false_2 by lia. cbn.
  now rewrite <- app_assoc.
Qed.

End CommandTraces.

(** * Round trip of the run-control frame *)

(** C4. For every run-control data whose LED fields are enumerated LED
    patterns and whose buzzer field is an enumerated buzzer mode, the frame
    the run-control command sends reads back as ProductId "AB", CommandId
    'S', reserved byte 0, DataLength 6 and a payload that is the six field
    values unchanged, which are the bytes [get_bytes] returned. Moreover in
    every frame any command or [main] hands to the socket, whatever the
    arguments and the peer, DataLength equals the byte length of the
    payload. *)
Theorem run_control_round_trip :
  (forall net w d,
     enumerated d = true ->
     exists frame f,
       sent_frames (snd (pns_run_control_command net d w)) = sent_frames w ++ [frame] /\
       parse_frame frame = Some f /\
       product_id f = PNS_PRODUCT_ID /\
       [command_id f] = PNS_RUN_CONTROL_COMMAND /\
       reserved f = 0 /\
       data_length f = 6 /\
       payload f = fields d /\
       get_bytes d = Ok (payload f)) /\
  (forall net d,
     Forall length_consistent (sent_frames (snd (pns_run_control_command net d [])))) /\
  (forall net,
     Forall length_consistent (sent_frames (snd (pns_clear_command net [])))) /\
  (forall net,
     Forall length_consistent (sent_frames (snd (pns_get_data_command net [])))) /\
  (forall net py_int args,
     Forall length_consistent (sent_frames (snd (main net py_int args [])))).
Proof.
  split_and!.
  - intros net w d Hd.
    pose proof (get_bytes_in_range d (enumerated_in_ubyte d Hd)) as Hp.
    exists ([0x41; 0x42; 0x53; 0; 0; 6] ++ fields d). eexists.
    split; [|split; [reflexivity|]].
    + rewrite pns_run_control_command_eq, Hp.
      rewrite <- send_command_frames with (net := net).
      destruct (send_command net _ w); reflexivity.
    + cbn [product_id command_id reserved data_length payload].
      split_and!; try reflexivity. exact Hp.
  - intros net d. destruct (emits_run_control net d []) as (tl & -> & F).
    now apply sent_frames_command_events.
  - intros net. destruct (emits_clear net []) as (tl & -> & F).
    now apply sent_frames_command_events.
  - intros net. destruct (emits_get_data net []) as (tl & -> & F).
    now apply sent_frames_command_events.
  - intros net py_int args. pose proof (main_trace net py_int args []) as H.
    destruct (on_connect net) as [e|].
    + rewrite H. constructor.
    + destruct H as (tl & -> & F).
      rewrite !sent_frames_app.
      change (sent_frames [EvClose]) with (@nil bytes).
      rewrite app_nil_r.
      now apply sent_frames_command_events.
Qed.

Lemma run_control_round_trip_witness :
  enumerated (mkRunControlData 1 0 2 0 9 1) = true /\
  exists frame f,
    sent_frames (snd (pns_run_control_command (answering [0x06])
                        (mkRunControlData 1 0 2 0 9 1) [])) = [frame] /\
    parse_frame frame = Some f /\
    [command_id f] = PNS_RUN_CONTROL_COMMAND /\
    data_length f = 6 /\
    payload f = [1; 0; 2; 0; 9; 1].
Proof.
  split; [reflexivity|].
  destruct (proj1 run_control_round_trip (answering [0x06]) []
              (mkRunControlData 1 0 2 0 9 1) eq_refl)
    as (frame & f & H1 & H2 & _ & H4 & _ & H6 & H7 & _).
  exists frame, f. split_and!; assumption.
Defined.

(** * The connection *)

(** C7 as stated fails when opening the connection raises: [socket_open] is
    called before the [try], so its exception leaves [main] without any call
    of [socket_close]. *)
Lemma close_on_every_path_counterexample :
  main refusing int_of_decimal ["main.py"; "C"]%string []
    = (Raise OSError, [EvConnect "192.168.10.1" 10000]) /\
  close_count (snd (main refusing int_of_decimal ["main.py"; "C"]%string [])) = 0%nat.
Proof. split; reflexivity. Qed.

(** C7 (amended). Once [socket_open] has returned, [socket_close] is called
    exactly once on every exit path of the invocation, as its last call on
    the socket, whether the selected command completes or raises any error
    (a missing or unknown command letter, a non-integer argument, a failed
    send or receive, a NAK, a short reply). When [socket_open] itself raises,
    the exception leaves [main] and [socket_close] is not called. *)
Theorem close_exactly_once_after_open net py_int args :
  (on_connect net = None ->
     close_count (snd (main net py_int args [])) = 1%nat /\
     last (snd (main net py_int args [])) = Some EvClose) /\
  (forall e, on_connect net = Some e ->
     fst (main net py_int args []) = Raise e /\
     close_count (snd (main net py_int args [])) = 0%nat).
Proof.
  pose proof (main_trace net py_int args []) as H. split.
  - intros Hc. rewrite Hc in H. destruct H as (tl & -> & F). split.
    + rewrite !close_count_app, (close_count_command_events tl F). reflexivity.
    + now rewrite !app_assoc, last_snoc.
  - intros e Hc. rewrite Hc in H. rewrite H. split; reflexivity.
Qed.

Lemma close_exactly_once_after_open_witness :
  close_count (snd (main (answering [0x15]) int_of_decimal
                      ["main.py"; "C"]%string [])) = 1%nat /\
  fst (main (answering [0x15]) int_of_decimal ["main.py"; "C"]%string [])
    = Raise NegativeAcknowledge.
Proof.
  split; [|reflexivity].
  apply (proj1 (close_exactly_once_after_open (answering [0x15]) int_of_decimal
                  ["main.py"; "C"]%string)).
  reflexivity.
Defined.

(** C8. When ['S'] is selected and fewer than six values follow it (fewer
    than 8 entries in [sys.argv]), [main] builds and sends no frame and
    raises nothing: on an opened connection it returns normally, having only
    connected and closed the socket. *)
Theorem run_control_missing_arguments net py_int (args : list string) :
  args !! 1%nat = Some "S"%string ->
  (length args < 8)%nat ->
  on_connect net = None ->
  main net py_int args []
    = (Ok tt, [EvConnect "192.168.10.1" 10000; EvClose]) /\
  sent_frames (snd (main net py_int args [])) = [].
Proof.
  intros Hsel Hargc Hconn.
  rewrite (main_S_too_few net py_int args [] Hsel Hargc Hconn).
  split; reflexivity.
Qed.

Lemma run_control_missing_arguments_witness :
  main (answering [0x06]) int_of_decimal ["main.py"; "S"; "1"; "0"; "2"]%string []
    = (Ok tt, [EvConnect "192.168.10.1" 10000; EvClose]).
Proof.
  apply (run_control_missing_arguments (answering [0x06]) int_of_decimal
           ["main.py"; "S"; "1"; "0"; "2"]%string).
  - reflexivity.
  - cbn. lia.
  - reflexivity.
Defined.


(** * Further properties of the exchange with the device *)

Section Exchange.

Variable net : network.
Implicit Types (w : list event) (d : PnsRunControlData).

Lemma send_command_Ok send_data w reply :
  fst (send_command net send_data w) = Ok reply ->
  on_send net send_data = None /\
  (exists delivered, on_recv net (w ++ [EvSend send_data]) = Ok delivered /\
                     reply = take 1024 delivered) /\
  snd (send_command net send_data w) = w ++ [EvSend send_data; EvRecv 1024%nat].
Proof.
  rewrite send_command_eq.
  destruct (on_send net send_data); [discriminate|].
  destruct (on_recv net _) as [delivered|]; cbn [fst snd]; [|discriminate].
  intros [= <-]. eauto.
Qed.

Lemma send_command_shape send_data w :
  exists tl,
    snd (send_command net send_data w) = w ++ EvSend send_data :: tl /\
    ((tl = [] /\ on_send net send_data <> None) \/
     (tl = [EvRecv 1024%nat] /\ on_send net send_data = None)).
Proof.
  rewrite send_command_eq.
  destruct (on_send net send_data) as [e|].
  - exists []. split; [reflexivity|]. left. split; [reflexivity|discriminate].
  - exists [EvRecv 1024%nat]. split; [|right; split; reflexivity].
    destruct (on_recv net _); reflexivity.
Qed.

Lemma run_control_world d w :
  forallb in_ubyte (fields d) = true ->
  snd (pns_run_control_command net d w)
    = snd (send_command net ([0x41; 0x42; 0x53; 0; 0; 6] ++ fields d) w).
Proof.
  intros Hd. rewrite pns_run_control_command_eq, (get_bytes_in_range d Hd).
  now destruct (send_command net _ w).
Qed.

Lemma clear_world w :
  snd (pns_clear_command net w)
    = snd (send_command net [0x41; 0x42; 0x43; 0; 0; 0] w).
Proof. rewrite pns_clear_command_eq. now destruct (send_command net _ w). Qed.

Lemma get_data_world w :
  snd (pns_get_data_command net w)
    = snd (send_command net [0x41; 0x42; 0x47; 0; 0; 0] w).
Proof. rewrite pns_get_data_command_eq. now destruct (send_command net _ w). Qed.

Lemma run_control_out_of_range d w :
  forallb in_ubyte (fields d) = false ->
  pns_run_control_command net d w = (Raise StructError, w).
Proof.
  intros Hd. rewrite pns_run_control_command_eq, get_bytes_cases, Hd. reflexivity.
Qed.

Lemma PnsStatusData_init_inv (data : bytes) st :
  PnsStatusData_init data = Ok st ->
  (6 <= length data)%nat /\ _ledPattern st = take 5 data /\
  data !! 5%nat = Some (_buzzer st).
Proof.
  intros H. destruct (decide (6 <= length data)%nat) as [Hlen|Hlen].
  - destruct (PnsStatusData_init_Ok data Hlen) as (buz & Hbuz & Hinit).
    rewrite Hinit in H. injection H as <-. auto.
  - rewrite PnsStatusData_init_short in H by lia. discriminate.
Qed.

Lemma take_5_of_6 (data : bytes) :
  (6 <= length data)%nat ->
  exists r a g b wh, take 5 data = [r; a; g; b; wh].
Proof.
  intros H. destruct data as [|r [|a [|g [|b [|wh [|z rest]]]]]]; cbn in H; try lia.
  now exists r, a, g, b, wh.
Qed.

Lemma get_data_Ok w st w2 :
  pns_get_data_command net w = (Ok st, w2) ->
  exists recv_data,
    send_command net [0x41; 0x42; 0x47; 0; 0; 0] w = (Ok recv_data, w2) /\
    nak_check recv_data = Ok tt /\
    PnsStatusData_init recv_data = Ok st.
Proof.
  rewrite pns_get_data_command_eq.
  destruct (send_command net _ w) as [[recv_data|e] w']; io_unfold; [|discriminate].
  destruct (nak_check recv_data) as [[]|e] eqn:Hn; [|discriminate].
  intros [= H <-]. eauto.
Qed.

Lemma get_data_pattern w st w2 :
  pns_get_data_command net w = (Ok st, w2) ->
  exists r a g b wh, ledPattern st = [r; a; g; b; wh].
Proof.
  intros H. destruct (get_data_Ok w st w2 H) as (recv_data & _ & _ & Hinit).
  destruct (PnsStatusData_init_inv recv_data st Hinit) as (Hlen & Hled & _).
  unfold ledPattern. rewrite py_slice_all_id, Hled. now apply take_5_of_6.
Qed.

End Exchange.

(** X1. Whatever the peer delivers, [send_command] returns at most 1024
    bytes, a prefix of what was delivered, and it returns them only after one
    send of exactly the given data followed by one [recv(1024)]; when the
    send raises, the exception propagates and no receive is attempted. *)
Theorem send_command_discipline net (send_data : bytes) (w : list event) :
  (forall reply,
     fst (send_command net send_data w) = Ok reply ->
     (length reply <= 1024)%nat /\
     (exists delivered,
        on_recv net (w ++ [EvSend send_data]) = Ok delivered /\
        reply = take 1024 delivered) /\
     snd (send_command net send_data w) = w ++ [EvSend send_data; EvRecv 1024%nat]) /\
  (forall e,
     on_send net send_data = Some e ->
     send_command net send_data w = (Raise e, w ++ [EvSend send_data])).
Proof.
  split.
  - intros reply H.
    destruct (send_command_Ok net send_data w reply H) as (_ & (dl & Hd & ->) & Hw).
    split; [rewrite length_take; lia|]. eauto.
  - intros e He. rewrite send_command_eq, He. reflexivity.
Qed.

Lemma send_command_discipline_witness :
  snd (send_command (answering (replicate 2000 0)) [0x41; 0x42; 0x43; 0; 0; 0] [])
    = [EvSend [0x41; 0x42; 0x43; 0; 0; 0]; EvRecv 1024%nat] /\
  (length (replicate 1024 0%Z) <= 1024)%nat.
Proof.
  destruct (proj1 (send_command_discipline (answering (replicate 2000 0))
                     [0x41; 0x42; 0x43; 0; 0; 0] [])
              (replicate 1024 0)) as (Hlen & _ & Htrace).
  - vm_compute. reflexivity.
  - split; [exact Htrace|exact Hlen].
Defined.

Lemma send_command_raises net (w : list event) frame e :
  exchange_raises net w frame e ->
  fst (send_command net frame w) = Raise e.
Proof.
  intros H. rewrite send_command_eq.
  destruct H as [Hs | [Hs Hr]]; rewrite Hs; [reflexivity|].
  now rewrite Hr.
Qed.

(** X2. The commands do not catch anything: when the send of a command's
    frame raises, or that send succeeds and the receive that follows raises,
    the command raises that same exception. *)
Theorem transport_errors_propagate net d (w : list event) e :
  (forallb in_ubyte (fields d) = true ->
   exchange_raises net w ([0x41; 0x42; 0x53; 0; 0; 6] ++ fields d) e ->
   fst (pns_run_control_command net d w) = Raise e) /\
  (exchange_raises net w [0x41; 0x42; 0x43; 0; 0; 0] e ->
   fst (pns_clear_command net w) = Raise e) /\
  (exchange_raises net w [0x41; 0x42; 0x47; 0; 0; 0] e ->
   fst (pns_get_data_command net w) = Raise e).
Proof.
  rewrite pns_run_control_command_eq, pns_clear_command_eq, pns_get_data_command_eq.
  split_and!.
  - intros Hd H. rewrite (get_bytes_in_range d Hd).
    apply send_command_raises in H.
    destruct (send_command net _ w) as [r w']. cbn [fst] in *. now subst r.
  - intros H. apply send_command_raises in H.
    destruct (send_command net _ w) as [r w']. cbn [fst] in *. now subst r.
  - intros H. apply send_command_raises in H.
    destruct (send_command net _ w) as [r w']. cbn [fst] in *. now subst r.
Qed.

Lemma transport_errors_propagate_witness :
  fst (pns_clear_command
         (mkNetwork None
            (fun data => if bool_decide (data = [0x41; 0x42; 0x43; 0; 0; 0])
                         then Some OSError else None)
            (fun _ => Ok [PNS_ACK])) [])
    = Raise OSError /\
  fst (pns_get_data_command
         (mkNetwork None (fun _ => None) (fun _ => Raise OSError)) [])
    = Raise OSError.
Proof.
  split.
  - apply (proj1 (proj2 (transport_errors_propagate
             (mkNetwork None
                (fun data => if bool_decide (data = [0x41; 0x42; 0x43; 0; 0; 0])
                             then Some OSError else None)
                (fun _ => Ok [PNS_ACK]))
             (mkRunControlData 1 0 2 0 9 1) [] OSError))).
    left. reflexivity.
  - apply (proj2 (proj2 (transport_errors_propagate
             (mkNetwork None (fun _ => None) (fun _ => Raise OSError))
             (mkRunControlData 1 0 2 0 9 1) [] OSError))).
    right. split; reflexivity.
Defined.

(** X4. A command is one strict exchange: to the trace it adds the send of
    its frame and then one [recv(1024)], nothing else (no connect, close,
    print, retry or second receive); the receive is missing exactly when the
    send raised. *)
Theorem commands_send_then_receive net d (w : list event) :
  forallb in_ubyte (fields d) = true ->
  one_exchange net w ([0x41; 0x42; 0x53; 0; 0; 6] ++ fields d)
    (snd (pns_run_control_command net d w)) /\
  one_exchange net w [0x41; 0x42; 0x43; 0; 0; 0] (snd (pns_clear_command net w)) /\
  one_exchange net w [0x41; 0x42; 0x47; 0; 0; 0] (snd (pns_get_data_command net w)).
Proof.
  intros Hd. unfold one_exchange.
  rewrite (run_control_world net d w Hd), clear_world, get_data_world.
  split_and!; apply send_command_shape.
Qed.

Lemma commands_send_then_receive_witness :
  one_exchange (answering [0x15]) [] ([0x41; 0x42; 0x53; 0; 0; 6] ++ [1; 0; 2; 0; 9; 1])
    (snd (pns_run_control_command (answering [0x15]) (mkRunControlData 1 0 2 0 9 1) [])).
Proof.
  apply (commands_send_then_receive (answering [0x15])
           (mkRunControlData 1 0 2 0 9 1) [] eq_refl).
Defined.

(** X5. Whenever the [PnsStatusData] constructor returns, its input had at
    least 6 bytes and the led pattern it stores has exactly five, so each of
    the subscripts [ledPattern[0]] to [ledPattern[4]] succeeds and
    [ledPattern[5]] raises. *)
Theorem status_data_has_five_leds (data : bytes) st :
  PnsStatusData_init data = Ok st ->
  (6 <= length data)%nat /\
  length (ledPattern st) = 5%nat /\
  (forall i, (i < 5)%nat -> exists v, py_index (ledPattern st) i = Ok v) /\
  py_index (ledPattern st) 5 = Raise IndexError.
Proof.
  intros H. destruct (PnsStatusData_init_inv data st H) as (Hlen & Hled & _).
  assert (Hl : length (ledPattern st) = 5%nat).
  { unfold ledPattern. rewrite py_slice_all_id, Hled, length_take. lia. }
  split_and!; try assumption.
  - intros i Hi. destruct (lookup_lt_is_Some_2 (ledPattern st) i) as [v Hv]; [lia|].
    exists v. unfold py_index. now rewrite Hv.
  - apply py_index_short. lia.
Qed.

Lemma status_data_has_five_leds_witness :
  length (ledPattern (mkStatusData [6; 1; 2; 3; 4] 5)) = 5%nat.
Proof.
  apply (status_data_has_five_leds [6; 1; 2; 3; 4; 5; 9; 9]
           (mkStatusData [6; 1; 2; 3; 4] 5)).
  reflexivity.
Defined.

(** X6. The status command never returns a status whose red LED field is
    0x15: the first reply byte is both the byte tested against NAK and the
    red field, so such a reply is always taken for a NAK. *)
Theorem get_data_red_never_nak net (w : list event) st :
  fst (pns_get_data_command net w) = Ok st ->
  ledPattern st !! 0%nat <> Some PNS_NAK /\
  py_index (ledPattern st) 0 <> Ok PNS_NAK.
Proof.
  intros H. destruct (pns_get_data_command net w) as [r w2] eqn:E.
  cbn [fst] in H. subst r.
  destruct (get_data_Ok net w st w2 E) as (recv_data & _ & Hnak & Hinit).
  destruct (PnsStatusData_init_inv recv_data st Hinit) as (Hlen & Hled & _).
  assert (Hne : ledPattern st !! 0%nat <> Some PNS_NAK).
  { unfold ledPattern. rewrite py_slice_all_id, Hled.
    rewrite nak_check_cases in Hnak.
    destruct recv_data as [|status rest]; [discriminate|]. cbn.
    case_bool_decide; [discriminate|congruence]. }
  split; [exact Hne|].
  intros Hi. apply py_index_Ok in Hi. contradiction.
Qed.

Lemma get_data_red_never_nak_witness :
  ledPattern (mkStatusData [6; 1; 2; 3; 4] 5) !! 0%nat <> Some PNS_NAK.
Proof.
  apply (get_data_red_never_nak (answering [6; 1; 2; 3; 4; 5; 9]) []
           (mkStatusData [6; 1; 2; 3; 4] 5)).
  reflexivity.
Defined.

(** * Further properties of the front end *)

Section FrontEnd.

Variable net : network.
Variable py_int : string -> result Z.
Implicit Types (w : list event) (args : list string).

Lemma py_index_Some {A} (l : list A) i x : l !! i = Some x -> py_index l i = Ok x.
Proof. apply py_index_Ok. Qed.

Lemma py_index_None {A} (l : list A) i : l !! i = None -> py_index l i = Raise IndexError.
Proof. intros H. unfold py_index. now rewrite H. Qed.

Lemma bind_eq {A B} (m : IO A) (f : A -> IO B) w :
  (m ≫= f) w =
  match m w with
  | (Ok a, w') => f a w'
  | (Raise e, w') => (Raise e, w')
  end.
Proof. reflexivity. Qed.

Lemma bind_lift_Ok {A B} (a : A) (f : A -> IO B) w : (lift (Ok a) ≫= f) w = f a w.
Proof. reflexivity. Qed.

Lemma bind_lift_Raise {A B} e (f : A -> IO B) w :
  (lift (Raise e) ≫= f) w = (Raise e, w).
Proof. reflexivity. Qed.

Lemma print_led_Ok label st i v w :
  ledPattern st !! i = Some v ->
  print_led label st i w = (Ok tt, w ++ [EvPrint (label +:+ str v)]).
Proof.
  intros H. unfold print_led, print, py_index. io_unfold. now rewrite H.
Qed.

Lemma bind_print {B} line (f : unit -> IO B) w :
  (print line ≫= f) w = f tt (w ++ [EvPrint line]).
Proof. reflexivity. Qed.

Lemma bind_print_led {B} label st i v (f : unit -> IO B) w :
  ledPattern st !! i = Some v ->
  (print_led label st i ≫= f) w = f tt (w ++ [EvPrint (label +:+ str v)]).
Proof. intros H. rewrite bind_eq, (print_led_Ok label st i v w H). reflexivity. Qed.

(** Every run of [main] on an opened connection is one branch of [dispatch]
    followed by the close. *)
Lemma main_dispatch args w :
  on_connect net = None ->
  exists r,
    dispatch net py_int args (w ++ [EvConnect "192.168.10.1" 10000]) r /\
    main net py_int args w = (fst r, snd r ++ [EvClose]).
Proof.
  intros Hconn.
  unfold main, socket_open, sock_connect.
  unfold mbind at 1. unfold IO_bind. rewrite Hconn. cbv beta.
  rewrite try_finally_socket_close.
  set (w1 := w ++ [EvConnect "192.168.10.1" 10000]).
  eexists. split; [|reflexivity].
  destruct (args !! 1%nat) as [a|] eqn:Ha.
  2:{ rewrite (py_index_None args 1 Ha), bind_lift_Raise. now constructor. }
  rewrite (py_index_Some args 1 a Ha), bind_lift_Ok.
  destruct (String.eqb a "S") eqn:HS.
  { apply String.eqb_eq in HS. subst a.
    case_bool_decide as Hargc; [|constructor; [assumption|lia]].
    subst w1.
    destruct args as [|a0 [|a1 [|a2 [|a3 [|a4 [|a5 [|a6 [|a7 rest]]]]]]]];
      cbn [length] in Hargc; try lia.
    change (int_arg py_int _ 2) with (lift (py_int a2) : IO Z).
    change (int_arg py_int _ 3) with (lift (py_int a3) : IO Z).
    change (int_arg py_int _ 4) with (lift (py_int a4) : IO Z).
    change (int_arg py_int _ 5) with (lift (py_int a5) : IO Z).
    change (int_arg py_int _ 6) with (lift (py_int a6) : IO Z).
    change (int_arg py_int _ 7) with (lift (py_int a7) : IO Z).
    destruct (py_int a2) as [v2|e] eqn:E2;
      [rewrite bind_lift_Ok
      |rewrite bind_lift_Raise; apply dispatch_S_bad_int with (i := 2%nat) (a := a2) (vs := []);
       solve [assumption | cbn; lia | reflexivity | cbn; repeat constructor; assumption]].
    destruct (py_int a3) as [v3|e] eqn:E3;
      [rewrite bind_lift_Ok
      |rewrite bind_lift_Raise; apply dispatch_S_bad_int with (i := 3%nat) (a := a3) (vs := [v2]);
       solve [assumption | cbn; lia | reflexivity | cbn; repeat constructor; assumption]].
    destruct (py_int a4) as [v4|e] eqn:E4;
      [rewrite bind_lift_Ok
      |rewrite bind_lift_Raise;
       apply dispatch_S_bad_int with (i := 4%nat) (a := a4) (vs := [v2; v3]);
       solve [assumption | cbn; lia | reflexivity | cbn; repeat constructor; assumption]].
    destruct (py_int a5) as [v5|e] eqn:E5;
      [rewrite bind_lift_Ok
      |rewrite bind_lift_Raise;
       apply dispatch_S_bad_int with (i := 5%nat) (a := a5) (vs := [v2; v3; v4]);
       solve [assumption | cbn; lia | reflexivity | cbn; repeat constructor; assumption]].
    destruct (py_int a6) as [v6|e] eqn:E6;
      [rewrite bind_lift_Ok
      |rewrite bind_lift_Raise;
       apply dispatch_S_bad_int with (i := 6%nat) (a := a6) (vs := [v2; v3; v4; v5]);
       solve [assumption | cbn; lia | reflexivity | cbn; repeat constructor; assumption]].
    destruct (py_int a7) as [v7|e] eqn:E7;
      [rewrite bind_lift_Ok
      |rewrite bind_lift_Raise;
       apply dispatch_S_bad_int with (i := 7%nat) (a := a7) (vs := [v2; v3; v4; v5; v6]);
       solve [assumption | cbn; lia | reflexivity | cbn; repeat constructor; assumption]].
    apply dispatch_S_run;
      solve [assumption | cbn; lia | cbn; repeat constructor; assumption]. }
  apply String.eqb_neq in HS.
  rewrite ?(py_index_Some args 1 a Ha), bind_lift_Ok.
  destruct (String.eqb a "C") eqn:HC.
  { apply String.eqb_eq in HC. subst a. now constructor. }
  apply String.eqb_neq in HC.
  rewrite ?(py_index_Some args 1 a Ha), bind_lift_Ok.
  destruct (String.eqb a "G") eqn:HG.
  2:{ apply String.eqb_neq in HG. now apply dispatch_other with (a := a). }
  apply String.eqb_eq in HG. subst a.
  rewrite bind_eq.
  destruct (pns_get_data_command net w1) as [[st|e] w2] eqn:E;
    [|now apply dispatch_G_raise].
  destruct (get_data_pattern net w1 st w2 E) as (r & am & g & b & wh & Hp).
  assert (Hi : forall i v, [r; am; g; b; wh] !! i = Some v ->
                           ledPattern st !! i = Some v) by now rewrite Hp.
  rewrite bind_print.
  rewrite (bind_print_led _ st 0 r), (bind_print_led _ st 1 am),
    (bind_print_led _ st 2 g), (bind_print_led _ st 3 b),
    (bind_print_led _ st 4 wh) by (apply Hi; reflexivity).
  unfold print, emit.
  rewrite <- !app_assoc. cbn [app].
  now apply dispatch_G_report.
Qed.

End FrontEnd.

Lemma printed_lines_app (w1 w2 : list event) :
  printed_lines (w1 ++ w2) = printed_lines w1 ++ printed_lines w2.
Proof. unfold printed_lines. apply omap_app. Qed.

Lemma printed_lines_map_print lines :
  printed_lines (map EvPrint lines) = lines.
Proof.
  induction lines as [|l ls IH]; [reflexivity|].
  change (l :: printed_lines (map EvPrint ls) = l :: ls). now rewrite IH.
Qed.

Lemma sent_frames_map_print lines : sent_frames (map EvPrint lines) = [].
Proof. induction lines as [|l ls IH]; [reflexivity|]. exact IH. Qed.

Lemma send_command_prints net send_data (w : list event) :
  printed_lines (snd (send_command net send_data w)) = printed_lines w.
Proof.
  destruct (send_command_world net send_data w) as (tl & -> & [-> | ->]);
    rewrite printed_lines_app; cbn; now rewrite app_nil_r.
Qed.

Lemma run_control_frames net d (w : list event) :
  sent_frames (snd (pns_run_control_command net d w)) =
  sent_frames w ++
  (if forallb in_ubyte (fields d)
   then [[0x41; 0x42; 0x53; 0; 0; 6] ++ fields d] else []).
Proof.
  destruct (forallb in_ubyte (fields d)) eqn:Hd.
  - rewrite (run_control_world net d w Hd). apply send_command_frames.
  - rewrite (run_control_out_of_range net d w Hd). cbn [snd]. now rewrite app_nil_r.
Qed.

Lemma run_control_prints net d (w : list event) :
  printed_lines (snd (pns_run_control_command net d w)) = printed_lines w.
Proof.
  destruct (forallb in_ubyte (fields d)) eqn:Hd.
  - rewrite (run_control_world net d w Hd). apply send_command_prints.
  - now rewrite (run_control_out_of_range net d w Hd).
Qed.

Lemma clear_frames net (w : list event) :
  sent_frames (snd (pns_clear_command net w))
    = sent_frames w ++ [[0x41; 0x42; 0x43; 0; 0; 0]].
Proof. rewrite clear_world. apply send_command_frames. Qed.

Lemma get_data_frames net (w : list event) :
  sent_frames (snd (pns_get_data_command net w))
    = sent_frames w ++ [[0x41; 0x42; 0x47; 0; 0; 0]].
Proof. rewrite get_data_world. apply send_command_frames. Qed.

Lemma clear_prints net (w : list event) :
  printed_lines (snd (pns_clear_command net w)) = printed_lines w.
Proof. rewrite clear_world. apply send_command_prints. Qed.

Lemma get_data_prints net (w : list event) :
  printed_lines (snd (pns_get_data_command net w)) = printed_lines w.
Proof. rewrite get_data_world. apply send_command_prints. Qed.

(** The arguments [main] converts, seen through [take 6 (drop 2 args)]. *)
Lemma converted_argument (args : list string) i :
  (2 <= i <= 7)%nat -> take 6 (drop 2 args) !! (i - 2)%nat = args !! i.
Proof.
  intros Hi. rewrite lookup_take_lt by lia. rewrite lookup_drop. f_equal. lia.
Qed.

Lemma converted_prefix (args : list string) i j :
  (2 <= i < j)%nat -> take (j - 2) (drop 2 args) !! (i - 2)%nat = args !! i.
Proof.
  intros Hi. rewrite lookup_take_lt by lia. rewrite lookup_drop. f_equal. lia.
Qed.

Lemma fields_inj d1 d2 : fields d1 = fields d2 -> d1 = d2.
Proof. destruct d1, d2. cbn. now intros [= -> -> -> -> -> ->]. Qed.

Lemma conversions_functional py_int (l : list string) (vs1 vs2 : list Z) :
  Forall2 (fun a v => py_int a = Ok v) l vs1 ->
  Forall2 (fun a v => py_int a = Ok v) l vs2 ->
  vs1 = vs2.
Proof.
  intros H1. revert vs2. induction H1 as [|a v l vs Ha _ IH]; intros vs2 H2;
    inversion H2 as [|a' v' l' vs' Ha' Hrest]; subst; [reflexivity|].
  f_equal; [congruence|]. now apply IH.
Qed.

(** X9. On an opened connection, [main] started without a command letter
    raises [IndexError] at [args[1]], and [main] started with a letter other
    than ['S'], ['C'] and ['G'] returns normally; in both cases nothing is
    sent or printed and the socket is closed. *)
Theorem main_no_or_unknown_command net py_int (args : list string) :
  on_connect net = None ->
  (args !! 1%nat = None ->
     main net py_int args []
       = (Raise IndexError, [EvConnect "192.168.10.1" 10000; EvClose])) /\
  (forall a, args !! 1%nat = Some a ->
     a <> "S"%string -> a <> "C"%string -> a <> "G"%string ->
     main net py_int args [] = (Ok tt, [EvConnect "192.168.10.1" 10000; EvClose])).
Proof.
  intros Hconn. destruct (main_dispatch net py_int args [] Hconn) as (r & Hd & ->).
  split.
  - intros Ha. inversion Hd; subst; try congruence. reflexivity.
  - intros a Ha HS HC HG. inversion Hd; subst; try congruence. reflexivity.
Qed.

Lemma main_no_or_unknown_command_witness :
  main (answering [0x06]) int_of_decimal ["main.py"]%string []
    = (Raise IndexError, [EvConnect "192.168.10.1" 10000; EvClose]) /\
  main (answering [0x06]) int_of_decimal ["main.py"; "s"]%string []
    = (Ok tt, [EvConnect "192.168.10.1" 10000; EvClose]).
Proof.
  split.
  - apply (main_no_or_unknown_command (answering [0x06]) int_of_decimal
             ["main.py"]%string); reflexivity.
  - apply (proj2 (main_no_or_unknown_command (answering [0x06]) int_of_decimal
                    ["main.py"; "s"]%string eq_refl) "s"%string);
      [reflexivity | discriminate | discriminate | discriminate].
Defined.

(** X13. On an opened connection, [main] with ['C'] is the clear command
    between the connect and the close: its outcome is the outcome of
    [pns_clear_command], so a NAK or a transport error of the command leaves
    [main] as that exception, after the socket is closed. *)
Theorem main_C_outcome net py_int (args : list string) :
  on_connect net = None ->
  args !! 1%nat = Some "C"%string ->
  main net py_int args [] =
  (fst (pns_clear_command net [EvConnect "192.168.10.1" 10000]),
   snd (pns_clear_command net [EvConnect "192.168.10.1" 10000]) ++ [EvClose]).
Proof.
  intros Hconn Ha. destruct (main_dispatch net py_int args [] Hconn) as (r & Hd & ->).
  inversion Hd; subst; try congruence. reflexivity.
Qed.

Lemma main_C_outcome_witness :
  main (answering [0x15]) int_of_decimal ["main.py"; "C"]%string [] =
  (Raise NegativeAcknowledge,
   [EvConnect "192.168.10.1" 10000; EvSend [0x41; 0x42; 0x43; 0; 0; 0];
    EvRecv 1024%nat; EvClose]).
Proof.
  apply (main_C_outcome (answering [0x15]) int_of_decimal ["main.py"; "C"]%string);
    reflexivity.
Defined.

(** X7. On an opened connection, when the reply to the status command passes
    the NAK test and has at least 6 bytes, [main] with ['G'] sends the status
    frame, receives once, prints the heading and then the first six reply
    bytes in decimal, in the order red, amber, green, blue, white, buzzer,
    closes the socket and returns normally. *)
Theorem main_G_report net py_int (args : list string) (reply : bytes) :
  on_connect net = None ->
  args !! 1%nat = Some "G"%string ->
  fst (send_command net [0x41; 0x42; 0x47; 0; 0; 0]
         [EvConnect "192.168.10.1" 10000]) = Ok reply ->
  nak_check reply = Ok tt ->
  (6 <= length reply)%nat ->
  exists red amber green blue white buz,
    take 6 reply = [red; amber; green; blue; white; buz] /\
    main net py_int args [] =
    (Ok tt,
     [EvConnect "192.168.10.1" 10000; EvSend [0x41; 0x42; 0x47; 0; 0; 0];
      EvRecv 1024%nat]
     ++ map EvPrint (report_lines red amber green blue white buz)
     ++ [EvClose]).
Proof.
  intros Hconn Ha Hrecv Hnak Hlen.
  destruct reply as [|red [|amber [|green [|blue [|white [|buz rest]]]]]];
    cbn [length] in Hlen; try lia.
  exists red, amber, green, blue, white, buz. split; [reflexivity|].
  destruct (main_dispatch net py_int args [] Hconn) as (r & Hd & ->).
  pose proof (get_data_outcome net _ _ Hrecv) as Hout. rewrite Hnak in Hout.
  inversion Hd as [ | | | | | e w2 _ E | st w2 r1 r2 r3 r4 r5 _ E Hp | ];
    subst; try congruence.
  - cbn [app] in E. rewrite E in Hout. discriminate.
  - cbn [app] in E.
    destruct (get_data_Ok net _ st w2 E) as (recv_data & Hsend & _ & Hinit).
    pose proof Hrecv as Hr.
    rewrite Hsend in Hr. cbn [fst] in Hr. injection Hr as ->.
    destruct (send_command_Ok net _ _ _ (f_equal fst Hsend)) as (_ & _ & Hw).
    rewrite Hsend in Hw. cbn [snd] in Hw. subst w2.
    cbn in Hinit. injection Hinit as <-.
    cbn in Hp. injection Hp as <- <- <- <- <-.
    cbn [fst snd buzzer _buzzer]. now rewrite <- !app_assoc.
Qed.

Lemma main_G_report_witness :
  printed_lines
    (snd (main (device [0; 1; 2; 3; 4; 9]) int_of_decimal
            ["main.py"; "G"]%string []))
  = report_lines 0 1 2 3 4 9.
Proof.
  destruct (main_G_report (device [0; 1; 2; 3; 4; 9]) int_of_decimal
              ["main.py"; "G"]%string [0; 1; 2; 3; 4; 9])
    as (r & a & g & b & wh & z & Ht & ->).
  - reflexivity.
  - reflexivity.
  - reflexivity.
  - reflexivity.
  - cbn. lia.
  - injection Ht as <- <- <- <- <- <-. reflexivity.
Defined.

(** When six values follow ['S'] and [int] accepts each of them, [main] runs
    the run-control command on them between the connect and the close. *)
Lemma main_S_run net py_int (args : list string) d :
  on_connect net = None ->
  args !! 1%nat = Some "S"%string ->
  (8 <= length args)%nat ->
  Forall2 (fun a v => py_int a = Ok v) (take 6 (drop 2 args)) (fields d) ->
  main net py_int args [] =
  (fst (pns_run_control_command net d [EvConnect "192.168.10.1" 10000]),
   snd (pns_run_control_command net d [EvConnect "192.168.10.1" 10000]) ++ [EvClose]).
Proof.
  intros Hconn Ha Hargc Hconv.
  destruct (main_dispatch net py_int args [] Hconn) as (r & Hd & ->).
  inversion Hd as [ | | i a e vs _ _ Hi _ Hai Hraise | d' _ _ Hconv' | | | | ];
    subst; try congruence; try lia.
  - rewrite <- (converted_argument args i Hi) in Hai.
    destruct (Forall2_lookup_l _ _ _ _ _ Hconv Hai) as (v & _ & Hv). congruence.
  - rewrite (fields_inj d' d (conversions_functional py_int _ _ _ Hconv' Hconv)).
    reflexivity.
Qed.

Lemma in_ubyte_range (vs : list Z) :
  forallb in_ubyte vs = true -> Forall (fun x => 0 <= x <= 255) vs.
Proof.
  induction vs as [|v vs IH]; [constructor|]. cbn [forallb].
  rewrite andb_true_iff. unfold in_ubyte at 1. rewrite bool_decide_eq_true.
  intros [Hv Hvs]. constructor; auto.
Qed.

(** X11. On an opened connection, when ['S'] is followed by at least six
    arguments and [int] accepts the first six with values in 0..255, [main]
    sends exactly one frame, the run-control header followed by those six
    values in the order given; arguments after the sixth value are ignored,
    and the outcome of [main] is the outcome of the run-control command. *)
Theorem main_S_sends_arguments net py_int (args : list string) d :
  on_connect net = None ->
  args !! 1%nat = Some "S"%string ->
  (8 <= length args)%nat ->
  Forall2 (fun a v => py_int a = Ok v) (take 6 (drop 2 args)) (fields d) ->
  forallb in_ubyte (fields d) = true ->
  sent_frames (snd (main net py_int args []))
    = [[0x41; 0x42; 0x53; 0; 0; 6] ++ fields d] /\
  fst (main net py_int args [])
    = fst (pns_run_control_command net d [EvConnect "192.168.10.1" 10000]).
Proof.
  intros Hconn Ha Hargc Hconv Hd.
  rewrite (main_S_run net py_int args d Hconn Ha Hargc Hconv). cbn [fst snd].
  split; [|reflexivity].
  rewrite sent_frames_app, run_control_frames, Hd. reflexivity.
Qed.

Lemma main_S_sends_arguments_witness :
  sent_frames
    (snd (main (answering [0x06]) int_of_decimal
            ["main.py"; "S"; "1"; "0"; "2"; "0"; "9"; "1"; "7"; "x"]%string []))
  = [[0x41; 0x42; 0x53; 0; 0; 6; 1; 0; 2; 0; 9; 1]].
Proof.
  apply (main_S_sends_arguments (answering [0x06]) int_of_decimal
           ["main.py"; "S"; "1"; "0"; "2"; "0"; "9"; "1"; "7"; "x"]%string
           (mkRunControlData 1 0 2 0 9 1)).
  - reflexivity.
  - reflexivity.
  - cbn. lia.
  - cbn. repeat constructor.
  - reflexivity.
Defined.

(** X3. A value outside 0..255 never reaches the device: the run-control
    command raises [struct.error] before any socket call, and [main] given
    six integers of which one is out of range only connects and closes, and
    leaves with that [struct.error]. *)
Theorem out_of_range_value_never_sent net py_int (args : list string) d :
  forallb in_ubyte (fields d) = false ->
  (forall w : list event,
     pns_run_control_command net d w = (Raise StructError, w)) /\
  (on_connect net = None ->
   args !! 1%nat = Some "S"%string ->
   (8 <= length args)%nat ->
   Forall2 (fun a v => py_int a = Ok v) (take 6 (drop 2 args)) (fields d) ->
   main net py_int args []
     = (Raise StructError, [EvConnect "192.168.10.1" 10000; EvClose])).
Proof.
  intros Hd. split.
  - intros w. now apply run_control_out_of_range.
  - intros Hconn Ha Hargc Hconv.
    rewrite (main_S_run net py_int args d Hconn Ha Hargc Hconv).
    now rewrite (run_control_out_of_range net d _ Hd).
Qed.

Lemma out_of_range_value_never_sent_witness :
  main (answering [0x06]) int_of_decimal
    ["main.py"; "S"; "1"; "0"; "256"; "0"; "9"; "1"]%string []
  = (Raise StructError, [EvConnect "192.168.10.1" 10000; EvClose]).
Proof.
  apply (out_of_range_value_never_sent (answering [0x06]) int_of_decimal
           ["main.py"; "S"; "1"; "0"; "256"; "0"; "9"; "1"]%string
           (mkRunControlData 1 0 256 0 9 1)).
  - reflexivity.
  - reflexivity.
  - reflexivity.
  - cbn. lia.
  - cbn. repeat constructor.
Defined.

(** X10. On an opened connection, when ['S'] is followed by at least six
    arguments and [int] raises on one of the first six, [main] sends nothing:
    it only connects and closes, and leaves with the exception of the first
    argument, in order, on which [int] raises. *)
Theorem main_S_bad_argument net py_int (args : list string) i a e :
  on_connect net = None ->
  args !! 1%nat = Some "S"%string ->
  (8 <= length args)%nat ->
  (2 <= i <= 7)%nat ->
  args !! i = Some a ->
  py_int a = Raise e ->
  exists j a' e' vs,
    (2 <= j <= i)%nat /\
    args !! j = Some a' /\
    py_int a' = Raise e' /\
    Forall2 (fun a v => py_int a = Ok v) (take (j - 2) (drop 2 args)) vs /\
    main net py_int args []
      = (Raise e', [EvConnect "192.168.10.1" 10000; EvClose]).
Proof.
  intros Hconn Ha Hargc Hi Hai Hraise.
  destruct (main_dispatch net py_int args [] Hconn) as (r & Hd & ->).
  inversion Hd as [ | | j a' e' vs _ _ Hj Hpre Haj Hraise' | d _ _ Hconv | | | | ];
    subst; try congruence; try lia.
  - exists j, a', e', vs. split_and!; try assumption; try reflexivity; try lia.
    destruct (decide (i < j)%nat) as [Hlt|]; [|lia].
    rewrite <- (converted_prefix args i j) in Hai by lia.
    destruct (Forall2_lookup_l _ _ _ _ _ Hpre Hai) as (v & _ & Hv). congruence.
  - rewrite <- (converted_argument args i Hi) in Hai.
    destruct (Forall2_lookup_l _ _ _ _ _ Hconv Hai) as (v & _ & Hv). congruence.
Qed.

Lemma main_S_bad_argument_witness :
  exists j a' e' vs,
    (2 <= j <= 5)%nat /\
    ["main.py"; "S"; "1"; "on"; "2"; "off"; "9"; "1"]%string !! j = Some a' /\
    int_of_decimal a' = Raise e' /\
    Forall2 (fun a v => int_of_decimal a = Ok v)
      (take (j - 2) (drop 2 ["main.py"; "S"; "1"; "on"; "2"; "off"; "9"; "1"]%string)) vs /\
    main (answering [0x06]) int_of_decimal
      ["main.py"; "S"; "1"; "on"; "2"; "off"; "9"; "1"]%string []
      = (Raise e', [EvConnect "192.168.10.1" 10000; EvClose]).
Proof.
  apply (main_S_bad_argument (answering [0x06]) int_of_decimal
           ["main.py"; "S"; "1"; "on"; "2"; "off"; "9"; "1"]%string 5 "off"%string
           (ValueError "invalid literal for int() with base 10: 'off'")).
  - reflexivity.
  - reflexivity.
  - cbn. lia.
  - lia.
  - reflexivity.
  - reflexivity.
Defined.

(** X8. Output is all or nothing: one invocation of [main] prints either
    nothing, or the heading and the six status lines; the latter only when
    ['G'] was selected, and then [main] returns normally. No error path
    leaves a partial report. *)
Theorem main_prints_all_or_nothing net py_int (args : list string) :
  printed_lines (snd (main net py_int args [])) = [] \/
  (args !! 1%nat = Some "G"%string /\
   fst (main net py_int args []) = Ok tt /\
   exists red amber green blue white buz,
     printed_lines (snd (main net py_int args []))
       = report_lines red amber green blue white buz).
Proof.
  pose proof (main_trace net py_int args []) as Ht.
  destruct (on_connect net) as [e|] eqn:Hconn; [left; now rewrite Ht|]. clear Ht.
  destruct (main_dispatch net py_int args [] Hconn) as (r & Hd & ->).
  cbn [fst snd]. rewrite printed_lines_app.
  change (printed_lines [EvClose]) with (@nil string). rewrite app_nil_r.
  inversion Hd as [ | | | d | | e w2 HG E | st w2 r1 r2 r3 r4 r5 HG E Hp | ];
    subst; cbn [fst snd]; try (left; reflexivity).
  - left. now rewrite run_control_prints.
  - left. now rewrite clear_prints.
  - left. apply (f_equal snd) in E. cbn [snd] in E. subst w2.
    now rewrite get_data_prints.
  - right. split; [exact HG|]. split; [reflexivity|].
    exists r1, r2, r3, r4, r5, (buzzer st).
    apply (f_equal snd) in E. cbn [snd] in E. subst w2.
    now rewrite printed_lines_app, get_data_prints, printed_lines_map_print.
Qed.

(** X12. One invocation of [main] sends at most one frame, whatever the
    arguments and the peer, and the frame is the one of the selected letter:
    the clear frame for ['C'], the status frame for ['G'], and for ['S'] the
    run-control header followed by six values; every byte of it is in
    0..255. *)
Theorem main_sends_the_selected_frame net py_int (args : list string) :
  sent_frames (snd (main net py_int args [])) = [] \/
  exists frame,
    sent_frames (snd (main net py_int args [])) = [frame] /\
    Forall (fun x => 0 <= x <= 255) frame /\
    ((args !! 1%nat = Some "C"%string /\ frame = [0x41; 0x42; 0x43; 0; 0; 0]) \/
     (args !! 1%nat = Some "G"%string /\ frame = [0x41; 0x42; 0x47; 0; 0; 0]) \/
     (args !! 1%nat = Some "S"%string /\
      exists d, frame = [0x41; 0x42; 0x53; 0; 0; 6] ++ fields d /\
                Forall2 (fun a v => py_int a = Ok v) (take 6 (drop 2 args)) (fields d))).
Proof.
  pose proof (main_trace net py_int args []) as Ht.
  destruct (on_connect net) as [e|] eqn:Hconn; [left; now rewrite Ht|]. clear Ht.
  destruct (main_dispatch net py_int args [] Hconn) as (r & Hd & ->).
  cbn [snd]. rewrite sent_frames_app.
  change (sent_frames [EvClose]) with (@nil bytes). rewrite app_nil_r.
  assert (Hhdr : forall c, 0 <= c <= 255 ->
            Forall (fun x => 0 <= x <= 255) [0x41; 0x42; c; 0; 0; 0]).
  { intros c Hc. repeat constructor; lia. }
  inversion Hd as [ | | | d HS _ Hconv | HC | e w2 HG E | st w2 r1 r2 r3 r4 r5 HG E Hp | ];
    subst; cbn [snd]; try (left; reflexivity).
  - rewrite run_control_frames.
    destruct (forallb in_ubyte (fields d)) eqn:Hr; [right|left; reflexivity].
    eexists. split; [reflexivity|]. split.
    + apply Forall_app. split; [repeat constructor; lia|now apply in_ubyte_range].
    + right. right. eauto.
  - right. rewrite clear_frames. eexists. split; [reflexivity|].
    split; [apply Hhdr; lia|]. left. auto.
  - right. apply (f_equal snd) in E. cbn [snd] in E. subst w2.
    rewrite get_data_frames. eexists. split; [reflexivity|].
    split; [apply Hhdr; lia|]. right. left. auto.
  - right. apply (f_equal snd) in E. cbn [snd] in E. subst w2.
    rewrite sent_frames_app, get_data_frames, sent_frames_map_print.
    eexists. split; [reflexivity|].
    split; [apply Hhdr; lia|]. right. left. auto.
Qed.

(** X14. The status the status command returns is decoded from the first six
    bytes the peer delivered to the single receive, also when more than 1024
    bytes were delivered: the led pattern is the first five delivered bytes
    and the buzzer the sixth. *)
Theorem get_data_decodes_delivered net (w : list event) st :
  fst (pns_get_data_command net w) = Ok st ->
  exists delivered,
    on_recv net (w ++ [EvSend [0x41; 0x42; 0x47; 0; 0; 0]]) = Ok delivered /\
    (6 <= length delivered)%nat /\
    ledPattern st = take 5 delivered /\
    delivered !! 5%nat = Some (buzzer st).
Proof.
  intros H. destruct (pns_get_data_command net w) as [r w2] eqn:E.
  cbn [fst] in H. subst r.
  destruct (get_data_Ok net w st w2 E) as (recv_data & Hsend & _ & Hinit).
  destruct (send_command_Ok net _ _ _ (f_equal fst Hsend))
    as (_ & (delivered & Hdel & ->) & _).
  destruct (PnsStatusData_init_inv _ st Hinit) as (Hlen & Hled & Hbuz).
  rewrite length_take in Hlen.
  exists delivered. split_and!; [exact Hdel | lia | |].
  - unfold ledPattern. rewrite py_slice_all_id, Hled, take_take. f_equal.
  - unfold buzzer. rewrite <- Hbuz. symmetry. apply lookup_take_lt. lia.
Qed.

Lemma get_data_decodes_delivered_witness :
  exists delivered,
    on_recv (answering ([0; 1; 2; 3; 4; 9] ++ replicate 2000 7))
      ([] ++ [EvSend [0x41; 0x42; 0x47; 0; 0; 0]]) = Ok delivered /\
    (6 <= length delivered)%nat /\
    ledPattern (mkStatusData [0; 1; 2; 3; 4] 9) = take 5 delivered /\
    delivered !! 5%nat = Some (buzzer (mkStatusData [0; 1; 2; 3; 4] 9)).
Proof.
  apply (get_data_decodes_delivered
           (answering ([0; 1; 2; 3; 4; 9] ++ replicate 2000 7)) []
           (mkStatusData [0; 1; 2; 3; 4] 9)).
  vm_compute. reflexivity.
Defined.
